(** * rpa-doc: the metadata extraction engine

    A shallow embedding of the metadata core of rpa-doc:

    - [src/app/WorkflowMetadata.js] (module [AppWorkflowMetadata]) and the
      revision of the same class kept in [src/unnamed/part_006] (module
      [Part006]), the validated in-memory model of one workflow;
    - [src/app/XamlProcessor.js] (module [XamlProcessor]), the extractor
      that walks a parsed XAML document and fills such a model.

    JavaScript values, strings and exceptions are modelled in [Js]; the
    part of xmldom and xpath the extractor relies on is modelled in [Dom].
    Strings are sequences of 8-bit code units. *)

From Stdlib Require Import ZArith Lia Ascii.
From stdpp Require Import base option list gmap strings relations.

Local Open Scope Z_scope.
Set Warnings "-register-all".

(** ** The DOM as the extractor sees it (xmldom, xpath) *)

Module Dom.

(** An element node: namespace URI, local name, attributes keyed by their
    qualified name (the [nodeName] xmldom looks attributes up by) and child
    elements in document order.  Text and comment nodes are left out: the
    location paths of the extractor only test element names. *)
Inductive element : Type :=
| Element (namespaceURI localName : string)
          (attributes : gmap string string)
          (childNodes : list element).

Definition namespaceURI (e : element) : string :=
  match e with Element ns _ _ _ => ns end.

Definition localName (e : element) : string :=
  match e with Element _ l _ _ => l end.

Definition attributes (e : element) : gmap string string :=
  match e with Element _ _ a _ => a end.

Definition childNodes (e : element) : list element :=
  match e with Element _ _ _ c => c end.

(** A parsed document: the element children of the Document node.  A
    well-formed document has exactly one, its outermost element. *)
Definition document : Type := list element.

(** [Element.prototype.hasAttribute(name)]. *)
Definition hasAttribute (e : element) (name : string) : bool :=
  bool_decide (is_Some (attributes e !! name)).

(** [Element.prototype.getAttribute(name)]: the value, or the empty string
    when the element carries no such attribute. *)
Definition getAttribute (e : element) (name : string) : string :=
  default "" (attributes e !! name).

(** One step [prefix:local] of a location path along the child axis. *)
Definition step : Type := string * string.

(** The prefix bindings handed to [xpath.useNamespaces]. *)
Definition resolver : Type := list (string * string).

Fixpoint lookupNamespaceURI (ns : resolver) (prefix : string) : option string :=
  match ns with
  | [] => None
  | (p, uri) :: rest =>
      if String.eqb p prefix then Some uri else lookupNamespaceURI rest prefix
  end.

(** The name test of a step: same namespace URI, same local name.  Every
    prefix the extractor uses is bound by its resolver. *)
Definition nameTest (ns : resolver) (st : step) (e : element) : bool :=
  match lookupNamespaceURI ns (fst st) with
  | Some uri => String.eqb (namespaceURI e) uri && String.eqb (localName e) (snd st)
  | None => false
  end.

(** The nodes an absolute location path [/s1/s2/...] selects, in document
    order: [nodes] is the node set reached so far, seen through the child
    lists its members contribute. *)
Fixpoint selectFrom (ns : resolver) (path : list step) (nodes : list element)
  : list element :=
  match path with
  | [] => nodes
  | st :: rest =>
      selectFrom ns rest
        (flat_map (fun e => filter (fun c => nameTest ns st c = true) (childNodes e)) nodes)
  end.

Definition select (ns : resolver) (path : list step) (doc : document) : list element :=
  match path with
  | [] => []
  | st :: rest =>
      selectFrom ns rest (filter (fun e => nameTest ns st e = true) doc)
  end.

End Dom.

(** ** JavaScript values, exceptions and string built-ins *)

Module Js.

(** The values the public methods are called with.  [object] stands for
    any object that is not a string (the tests pass [new Object()]). *)
Inductive value : Type :=
| undefined
| null
| boolean (b : bool)
| number (n : Z)
| str (s : string)
| object.

Definition typeof (v : value) : string :=
  match v with
  | undefined => "undefined"
  | null => "object"
  | boolean _ => "boolean"
  | number _ => "number"
  | str _ => "string"
  | object => "object"
  end.

(** ToBoolean. *)
Definition truthy (v : value) : bool :=
  match v with
  | undefined => false
  | null => false
  | boolean b => b
  | number n => negb (n =? 0)
  | str s => negb (String.eqb s "")
  | object => true
  end.

(** The guard [!v || typeof v !== "string"] of a required string
    parameter: [None] when the guard fires, the string otherwise. *)
Definition requiredString (v : value) : option string :=
  if negb (truthy v) || negb (String.eqb (typeof v) "string") then None
  else match v with str s => Some s | _ => None end.

(** The guard [typeof v !== "string"] of a string parameter that may be
    empty. *)
Definition stringParameter (v : value) : option string :=
  if negb (String.eqb (typeof v) "string") then None
  else match v with str s => Some s | _ => None end.

(** What a call can raise.  [TypeError] and [ReferenceError] carry the
    message the source passes to the constructor.  [UndefinedAccess p] is
    the TypeError the engine raises on reading property [p] of
    [undefined]; its message is the engine's, not the program's.
    [SystemError] is what [fs.readFileSync] raises. *)
Inductive error : Type :=
| TypeError (message : string)
| ReferenceError (message : string)
| UndefinedAccess (property : string)
| SystemError (code : string).

(** The outcome of a call: a returned value or a raised exception. *)
Inductive outcome (A : Type) : Type :=
| Return (a : A)
| Throw (e : error).
Arguments Return {A} a.
Arguments Throw {A} e.

#[global] Instance outcome_ret : MRet outcome := fun _ a => Return a.
#[global] Instance outcome_bind : MBind outcome := fun _ _ f m =>
  match m with
  | Return a => f a
  | Throw e => Throw e
  end.

(** [arr[0]] followed by a property read: the engine raises when the
    array is empty. *)
Definition first {A : Type} (property : string) (arr : list A) : outcome A :=
  match arr with
  | x :: _ => Return x
  | [] => Throw (UndefinedAccess property)
  end.

(** *** String built-ins *)

(** [s.indexOf(needle)]: position of the first occurrence, [-1] if none. *)
Fixpoint indexOfFrom (needle s : string) (i : Z) : Z :=
  if String.prefix needle s then i
  else match s with
       | EmptyString => -1
       | String _ rest => indexOfFrom needle rest (i + 1)
       end.

Definition indexOf (s needle : string) : Z := indexOfFrom needle s 0.

(** [s.slice(start, end)]: negative positions count from the end, both
    are clamped to the string, and an empty span yields the empty string. *)
Definition slice (s : string) (start finish : Z) : string :=
  let len := Z.of_nat (String.length s) in
  let from := if start <? 0 then Z.max (len + start) 0 else Z.min start len in
  let to := if finish <? 0 then Z.max (len + finish) 0 else Z.min finish len in
  String.substring (Z.to_nat from) (Z.to_nat (Z.max (to - from) 0)) s.

(** White space and line terminators among the 8-bit code units. *)
Definition isWhiteSpace (c : Ascii.ascii) : bool :=
  let n := Ascii.nat_of_ascii c in
  ((9 <=? n) && (n <=? 13) || (n =? 32) || (n =? 160))%nat.

Fixpoint trimStart (s : string) : string :=
  match s with
  | EmptyString => EmptyString
  | String c rest => if isWhiteSpace c then trimStart rest else s
  end.

Fixpoint trimEnd (s : string) : string :=
  match s with
  | EmptyString => EmptyString
  | String c rest =>
      match trimEnd rest with
      | EmptyString => if isWhiteSpace c then EmptyString else String c EmptyString
      | kept => String c kept
      end
  end.

(** [s.trim()]. *)
Definition trim (s : string) : string := trimEnd (trimStart s).

Fixpoint dropString (n : nat) (s : string) : string :=
  match n, s with
  | O, _ => s
  | S n', String _ rest => dropString n' rest
  | S _, EmptyString => EmptyString
  end.

(** [s.replace(pattern, replacement)] with a string pattern: only the
    first occurrence is replaced.  The replacements used by the source
    contain no [$]. *)
Fixpoint replace (s pattern replacement : string) : string :=
  if String.prefix pattern s
  then replacement +:+ dropString (String.length pattern) s
  else match s with
       | EmptyString => EmptyString
       | String c rest => String c (replace rest pattern replacement)
       end.

Definition isLineBreak (c : Ascii.ascii) : bool :=
  let n := Ascii.nat_of_ascii c in ((n =? 10) || (n =? 13))%nat.

Fixpoint skipLineBreaks (s : string) : string :=
  match s with
  | EmptyString => EmptyString
  | String c rest => if isLineBreak c then skipLineBreaks rest else s
  end.

(** [s.replace(/[\r\n]+/, replacement)]: the first maximal run of CR and
    LF is replaced (the expression has no [g] flag). *)
Fixpoint replaceLineBreaks (s replacement : string) : string :=
  match s with
  | EmptyString => EmptyString
  | String c rest =>
      if isLineBreak c then replacement +:+ skipLineBreaks rest
      else String c (replaceLineBreaks rest replacement)
  end.

(** [arr.includes(x)] for an array of strings and a string. *)
Fixpoint includes (arr : list string) (x : string) : bool :=
  match arr with
  | [] => false
  | y :: rest => String.eqb y x || includes rest x
  end.

(** [arr.join(separator)]. *)
Fixpoint join (arr : list string) (separator : string) : string :=
  match arr with
  | [] => ""
  | [x] => x
  | x :: rest => x +:+ separator +:+ join rest separator
  end.

(** [util.format(fmt, ...args)] for string arguments: each [%s] takes the
    next argument; a [%s] with no argument left stays as it is and
    arguments left over are appended, separated by spaces. *)
Fixpoint format (fmt : string) (args : list string) : string :=
  match fmt with
  | String "%"%char (String "s"%char rest) =>
      match args with
      | a :: args' => a +:+ format rest args'
      | [] => String "%"%char (String "s"%char (format rest []))
      end
  | String c rest => String c (format rest args)
  | EmptyString => fold_right (fun a acc => " " +:+ a +:+ acc) "" args
  end.

End Js.

(** ** Methods on a mutable receiver *)

(** A method call reads and may update its receiver [this], and either
    returns or raises.  The receiver is handed back in both cases, so that
    what a failed call leaves behind can be stated. *)
Definition method (S A : Type) : Type := S -> Js.outcome A * S.

(** [obj.m(...)] inside a function that lets exceptions escape: the
    updated receiver when the call returns, the exception otherwise. *)
Definition call {S A : Type} (m : method S A) (this : S) : Js.outcome S :=
  match m this with
  | (Js.Return _, this') => Js.Return this'
  | (Js.Throw e, _) => Js.Throw e
  end.

(** [arr.forEach(callback)] where the callback updates captured state
    [S] and may raise: the elements are visited in order and the first
    exception ends the loop. *)
Fixpoint forEach {A S : Type} (callback : A -> S -> Js.outcome S) (arr : list A) (s : S)
  : Js.outcome S :=
  match arr with
  | [] => Js.Return s
  | x :: rest => s' ← callback x s; forEach callback rest s'
  end.

(** The object literal with the keys [name], [direction], [type],
    [annotation] and [defaultValue], as built by
    [WorkflowMetadata.addArgument] and by
    [XamlProcessor.getWorkflowArguments]. *)
Record Argument : Type := {
  name : string;
  direction : string;
  type : string;
  annotation : string;
  defaultValue : string
}.

(** ** src/app/WorkflowMetadata.js *)

Module AppWorkflowMetadata.
Import Js.

(** The instance state.  [workflowName] and [workflowAnnotation] are
    [None] while the property is [undefined]; the only assignments to them
    store a string.  [arguments] is the [Map] keyed by argument name; its
    iteration order is not modelled. *)
Record WorkflowMetadata : Type := {
  filePath : string;
  workflowName : option string;
  workflowAnnotation : option string;
  arguments : gmap string Argument
}.

(** Assigned once by the constructor and never written again. *)
Definition validArgumentDirections : list string :=
  ["InArgument"; "OutArgument"; "InOutArgument"].

Definition constructor (filePath : value) : outcome WorkflowMetadata :=
  match requiredString filePath with
  | None => Throw (TypeError "filePath parameter is required and must be a string")
  | Some path =>
      Return {| filePath := path; workflowName := None;
                workflowAnnotation := None; arguments := ∅ |}
  end.

Definition getFilePath : method WorkflowMetadata string :=
  fun this => (Return (filePath this), this).

Definition setWorkflowName (workflowName' : value) : method WorkflowMetadata unit :=
  fun this =>
  match requiredString workflowName' with
  | None =>
      (Throw (TypeError "workflowName parameter is required and must be a string"), this)
  | Some s =>
      (Return (), {| filePath := filePath this; workflowName := Some s;
                     workflowAnnotation := workflowAnnotation this;
                     arguments := arguments this |})
  end.

Definition getWorkflowName : method WorkflowMetadata string :=
  fun this =>
  match workflowName this with
  | None => (Throw (ReferenceError "The workflowName property has not been set."), this)
  | Some s => (Return s, this)
  end.

Definition addArgument (name direction type annotation defaultValue : value)
  : method WorkflowMetadata unit :=
  fun this =>
  match requiredString name with
  | None => (Throw (TypeError "name parameter is required and must be a string"), this)
  | Some name =>
  match requiredString direction with
  | None => (Throw (TypeError "direction parameter is required and must be a string"), this)
  | Some direction =>
  if negb (includes validArgumentDirections direction)
  then (Throw (TypeError ("direction parameter must be one of "
                          +:+ join validArgumentDirections "|")), this)
  else
  match requiredString type with
  | None => (Throw (TypeError "type parameter is required and must be a string"), this)
  | Some type =>
  match stringParameter annotation with
  | None => (Throw (TypeError "annotation parameter is required and must be a string"), this)
  | Some annotation =>
  match stringParameter defaultValue with
  | None => (Throw (TypeError "defaultValue parameter is required and must be a string"), this)
  | Some defaultValue =>
      (Return (),
       {| filePath := filePath this; workflowName := workflowName this;
          workflowAnnotation := workflowAnnotation this;
          arguments :=
            <[name := {| name := name; direction := direction; type := type;
                         annotation := annotation; defaultValue := defaultValue |}]>
              (arguments this) |})
  end end end end end.

Definition getArguments : method WorkflowMetadata (gmap string Argument) :=
  fun this => (Return (arguments this), this).

Definition setWorkflowAnnotation (workflowAnnotation' : value)
  : method WorkflowMetadata unit :=
  fun this =>
  match requiredString workflowAnnotation' with
  | None =>
      (Throw (TypeError "workflowAnnotation parameter is required and must be a string"), this)
  | Some s =>
      (Return (), {| filePath := filePath this; workflowName := workflowName this;
                     workflowAnnotation := Some s;
                     arguments := arguments this |})
  end.

Definition getWorkflowAnnotation : method WorkflowMetadata string :=
  fun this =>
  match workflowAnnotation this with
  | None =>
      (Throw (ReferenceError "The workflowAnnotation property has not been set."), this)
  | Some s => (Return s, this)
  end.

(** The models a client can hold: built by the constructor and then
    driven through the mutating methods, whatever their arguments and
    whether the calls return or raise. *)
Inductive reachable : WorkflowMetadata -> Prop :=
| reachable_new filePath this :
    constructor filePath = Return this -> reachable this
| reachable_setWorkflowName v this :
    reachable this -> reachable (snd (setWorkflowName v this))
| reachable_setWorkflowAnnotation v this :
    reachable this -> reachable (snd (setWorkflowAnnotation v this))
| reachable_addArgument name direction type annotation defaultValue this :
    reachable this ->
    reachable (snd (addArgument name direction type annotation defaultValue this)).

End AppWorkflowMetadata.

(** ** src/unnamed/part_006: the revision of WorkflowMetadata that
    normalises what it stores and returns *)

Module Part006.
Import Js.

Record WorkflowMetadata : Type := {
  filePath : string;
  workflowName : option string;
  workflowAnnotation : option string;
  arguments : gmap string Argument;
  projectFilePath : option string
}.

Definition validArgumentDirections : list string :=
  ["InArgument"; "OutArgument"; "InOutArgument"].

Section Path.

(** [path.normalize] and [path.relative] of Node's [path] module. *)
Variable normalize : string -> string.
Variable relative : string -> string -> string.

Definition constructor (filePath : value) : outcome WorkflowMetadata :=
  match requiredString filePath with
  | None => Throw (TypeError "filePath parameter is required and must be a string")
  | Some path =>
      Return {| filePath := normalize path; workflowName := None;
                workflowAnnotation := None; arguments := ∅;
                projectFilePath := None |}
  end.

Definition getFilePath : method WorkflowMetadata string :=
  fun this => (Return (filePath this), this).

Definition setProjectFilePath (projectPath : value) : method WorkflowMetadata unit :=
  fun this =>
  match requiredString projectPath with
  | None =>
      (Throw (TypeError "workflowAnnotation parameter is required and must be a string"), this)
  | Some projectPath =>
      (Return (), {| filePath := filePath this; workflowName := workflowName this;
                     workflowAnnotation := workflowAnnotation this;
                     arguments := arguments this;
                     projectFilePath := Some (relative projectPath (filePath this)) |})
  end.

End Path.

Definition getProjectFilePath : method WorkflowMetadata string :=
  fun this =>
  match projectFilePath this with
  | None => (Throw (ReferenceError "The projectFilePath property has not been set."), this)
  | Some s => (Return s, this)
  end.

Definition setWorkflowName (workflowName' : value) : method WorkflowMetadata unit :=
  fun this =>
  match requiredString workflowName' with
  | None =>
      (Throw (TypeError "workflowName parameter is required and must be a string"), this)
  | Some s =>
      (Return (), {| filePath := filePath this; workflowName := Some s;
                     workflowAnnotation := workflowAnnotation this;
                     arguments := arguments this;
                     projectFilePath := projectFilePath this |})
  end.

Definition getWorkflowName : method WorkflowMetadata string :=
  fun this =>
  match workflowName this with
  | None => (Throw (ReferenceError "The workflowName property has not been set."), this)
  | Some s => (Return (trim s), this)
  end.

Definition addArgument (name direction type annotation defaultValue : value)
  : method WorkflowMetadata unit :=
  fun this =>
  match requiredString name with
  | None => (Throw (TypeError "name parameter is required and must be a string"), this)
  | Some name =>
  match requiredString direction with
  | None => (Throw (TypeError "direction parameter is required and must be a string"), this)
  | Some direction =>
  if negb (includes validArgumentDirections direction)
  then (Throw (TypeError ("direction parameter must be one of "
                          +:+ join validArgumentDirections "|")), this)
  else
  match requiredString type with
  | None => (Throw (TypeError "type parameter is required and must be a string"), this)
  | Some type =>
  match stringParameter annotation with
  | None => (Throw (TypeError "annotation parameter is required and must be a string"), this)
  | Some annotation =>
  match stringParameter defaultValue with
  | None => (Throw (TypeError "defaultValue parameter is required and must be a string"), this)
  | Some defaultValue =>
      (Return (),
       {| filePath := filePath this; workflowName := workflowName this;
          workflowAnnotation := workflowAnnotation this;
          arguments :=
            <[name := {| name := trim name;
                         direction := trim direction;
                         type := trim type;
                         annotation := replaceLineBreaks (trim annotation) " ";
                         defaultValue := replace (replace (trim defaultValue) "[" "") "]" "" |}]>
              (arguments this);
          projectFilePath := projectFilePath this |})
  end end end end end.

Definition getArguments : method WorkflowMetadata (gmap string Argument) :=
  fun this => (Return (arguments this), this).

Definition setWorkflowAnnotation (workflowAnnotation' : value)
  : method WorkflowMetadata unit :=
  fun this =>
  match requiredString workflowAnnotation' with
  | None =>
      (Throw (TypeError "workflowAnnotation parameter is required and must be a string"), this)
  | Some s =>
      (Return (), {| filePath := filePath this; workflowName := workflowName this;
                     workflowAnnotation := Some s;
                     arguments := arguments this;
                     projectFilePath := projectFilePath this |})
  end.

Definition getWorkflowAnnotation : method WorkflowMetadata string :=
  fun this =>
  match workflowAnnotation this with
  | None =>
      (Throw (ReferenceError "The workflowAnnotation property has not been set."), this)
  | Some s => (Return (trim s), this)
  end.

Inductive reachable : WorkflowMetadata -> Prop :=
| reachable_new normalize filePath this :
    constructor normalize filePath = Return this -> reachable this
| reachable_setWorkflowName v this :
    reachable this -> reachable (snd (setWorkflowName v this))
| reachable_setWorkflowAnnotation v this :
    reachable this -> reachable (snd (setWorkflowAnnotation v this))
| reachable_setProjectFilePath relative v this :
    reachable this -> reachable (snd (setProjectFilePath relative v this))
| reachable_addArgument name direction type annotation defaultValue this :
    reachable this ->
    reachable (snd (addArgument name direction type annotation defaultValue this)).

End Part006.

(** ** src/app/XamlProcessor.js *)

Module XamlProcessor.
Import Js AppWorkflowMetadata.

Definition xamlNamespaces : Dom.resolver :=
  [ ("xaml", "http://schemas.microsoft.com/netfx/2009/xaml/activities");
    ("x", "http://schemas.microsoft.com/winfx/2006/xaml");
    ("sap2010", "http://schemas.microsoft.com/netfx/2010/xaml/activities/presentation");
    ("ui", "http://schemas.uipath.com/workflow/activities");
    ("this", "clr-namespace:") ].

(** [this.xpath(expression, xamlDoc)], the selector bound to
    [xamlNamespaces]; the expression is given by its steps. *)
Definition xpath (expression : list Dom.step) (xamlDoc : Dom.document)
  : list Dom.element :=
  Dom.select xamlNamespaces expression xamlDoc.

(** The message of the guard [!xamlDoc || typeof( xamlDoc ) !== "object"].
    A document argument is [Some doc] for a parsed document and [None]
    for an argument the guard rejects. *)
Definition xamlDocRequired : error :=
  TypeError "xamlDoc parameter is required and must be an instance of DOMParser object".

(** The lookup [getWorkflowName] and [getWorkflowAnnotation] both start
    with: the flowchart roots, or the sequence roots when there is no
    flowchart root. *)
Definition workflowElements (xamlDoc : Dom.document) : list Dom.element :=
  let workflowElements := xpath [("xaml", "Activity"); ("xaml", "Flowchart")] xamlDoc in
  if (length workflowElements =? 0)%nat
  then xpath [("xaml", "Activity"); ("xaml", "Sequence")] xamlDoc
  else workflowElements.

Definition getWorkflowName (xamlDoc : option Dom.document) : outcome string :=
  match xamlDoc with
  | None => Throw xamlDocRequired
  | Some xamlDoc =>
      root ← first "getAttribute" (workflowElements xamlDoc);
      Return (Dom.getAttribute root "DisplayName")
  end.

Definition getWorkflowAnnotation (xamlDoc : option Dom.document) : outcome string :=
  match xamlDoc with
  | None => Throw xamlDocRequired
  | Some xamlDoc =>
      root ← first "hasAttribute" (workflowElements xamlDoc);
      if Dom.hasAttribute root "sap2010:Annotation.AnnotationText"
      then Return (Dom.getAttribute root "sap2010:Annotation.AnnotationText")
      else Return ""
  end.

Definition parseArgumentTypeAttribute (argumentType : value) : outcome (string * string) :=
  match requiredString argumentType with
  | None => Throw (TypeError "argumentType parameter is required and must be a string")
  | Some argumentType =>
      let direction := slice argumentType 0 (indexOf argumentType "(") in
      let dataType :=
        slice argumentType (indexOf argumentType ":" + 1) (indexOf argumentType ")") in
      Return (direction, dataType)
  end.

Definition getClassName (xamlDoc : option Dom.document) : outcome string :=
  match xamlDoc with
  | None => Throw xamlDocRequired
  | Some xamlDoc =>
      activityElement ← first "getAttribute" (xpath [("xaml", "Activity")] xamlDoc);
      Return (Dom.getAttribute activityElement "x:Class")
  end.

Definition getArgumentDefaultValue (xamlDoc : option Dom.document) (argumentName : value)
  : outcome string :=
  match xamlDoc with
  | None => Throw xamlDocRequired
  | Some doc =>
      match requiredString argumentName with
      | None => Throw (TypeError "argumentName parameter is required and must be a string")
      | Some argumentName =>
          className ← getClassName xamlDoc;
          activityElement ← first "hasAttribute" (xpath [("xaml", "Activity")] doc);
          let attributeName := format "this:%s.%s" [className; argumentName] in
          if Dom.hasAttribute activityElement attributeName
          then Return (Dom.getAttribute activityElement attributeName)
          else Return ""
      end
  end.

Definition getWorkflowArguments (xamlDoc : option Dom.document) : outcome (list Argument) :=
  match xamlDoc with
  | None => Throw xamlDocRequired
  | Some doc =>
      let workflowArgumentElements :=
        xpath [("xaml", "Activity"); ("x", "Members"); ("x", "Property")] doc in
      if (0 <? length workflowArgumentElements)%nat
      then
        forEach
          (fun argument xamlArguments =>
             let argumentName := Dom.getAttribute argument "Name" in
             let typeAttribute := Dom.getAttribute argument "Type" in
             argumentTypeInfo ← parseArgumentTypeAttribute (str typeAttribute);
             let argumentAnnotation :=
               if Dom.hasAttribute argument "sap2010:Annotation.AnnotationText"
               then Dom.getAttribute argument "sap2010:Annotation.AnnotationText"
               else "" in
             defaultValue ← getArgumentDefaultValue xamlDoc (str argumentName);
             Return (xamlArguments ++
                     [ {| name := argumentName;
                          direction := fst argumentTypeInfo;
                          type := snd argumentTypeInfo;
                          annotation := argumentAnnotation;
                          defaultValue := defaultValue |} ]))
          workflowArgumentElements []
      else Return []
  end.

Section GetMetadata.

(** [fs.readFileSync( filePath )] followed by
    [new DOMParser().parseFromString( ... )]: the file system and the
    parser are the environment of the extractor. *)
Variable readXaml : string -> outcome Dom.document.

Definition getMetadata (filePath : value) : outcome WorkflowMetadata :=
  match requiredString filePath with
  | None => Throw (TypeError "filePath parameter is required and must be a string")
  | Some path =>
      doc ← readXaml path;
      metadata ← constructor filePath;
      workflowName ← getWorkflowName (Some doc);
      metadata ← call (setWorkflowName (str workflowName)) metadata;
      workflowAnnotation ← getWorkflowAnnotation (Some doc);
      metadata ← call (setWorkflowAnnotation (str workflowAnnotation)) metadata;
      workflowArguments ← getWorkflowArguments (Some doc);
      forEach
        (fun arg metadata =>
           call (addArgument (str (name arg)) (str (direction arg)) (str (type arg))
                             (str (annotation arg)) (str (defaultValue arg)))
                metadata)
        workflowArguments metadata
  end.

End GetMetadata.

End XamlProcessor.

(** ** Further built-ins: [split], line feeds *)

Module JsText.

(** The line feed the format strings write as [\n]. *)
Definition lineFeed : string := String "010"%char "".

(** [s.split(separator)] for a separator of one code unit, as [path.sep]
    is: the pieces between the occurrences, empty ones included. *)
Fixpoint split (s : string) (separator : Ascii.ascii) : list string :=
  match s with
  | EmptyString => [ "" ]
  | String c rest =>
      if Ascii.eqb c separator then "" :: split rest separator
      else match split rest separator with
           | piece :: pieces => String c piece :: pieces
           | [] => [ String c "" ]
           end
  end.

(** A getter called on a receiver it leaves as it is. *)
Definition read {S A : Type} (getter : method S A) (this : S) : Js.outcome A :=
  fst (getter this).

End JsText.

(** ** src/app/OutputMarkdown.js, the earlier revision (second half of the
    file): [writeFile] on a model of src/app/WorkflowMetadata.js *)

Module OutputMarkdownEarlier.
Import Js JsText.

(** The instance state the constructor leaves: the output directory. *)
Record OutputMarkdown : Type := { outputPath : string }.

(** The callback [writeFile] hands to [workflowArguments.forEach]: one
    table row. *)
Definition row (arg : Argument) : string :=
  format ("|%s|%s|%s|%s|%s|" +:+ lineFeed)
    [ name arg; annotation arg; replace (direction arg) "Argument" "";
      type arg; defaultValue arg ].

Section Environment.

(** [path.join] of two strings, and [fs.writeFileSync] on a file system
    of any kind. *)
Variable pathJoin : string -> string -> string.
Variable FileSystem : Type.
Variable writeFileSync : string -> string -> method FileSystem unit.

(** The order in which [Map.prototype.forEach] visits the values, the
    insertion order, which the map of the model does not record. *)
Variable visit : gmap string Argument -> list Argument.

(** [metadata] is [Some] model, or [None] for an argument the guard
    [!metadata || !( metadata instanceof WorkflowMetadata )] rejects. *)
Definition writeFile (this : OutputMarkdown)
    (metadata : option AppWorkflowMetadata.WorkflowMetadata) : method FileSystem unit :=
  fun files =>
  match metadata with
  | None =>
      (Throw (TypeError "metadata parameter is required and must be a WorkflowMetadata object"),
       files)
  | Some metadata =>
      let prepared :=
        workflowName ← read AppWorkflowMetadata.getWorkflowName metadata;
        let outputFilePath := pathJoin (outputPath this) (workflowName +:+ ".md") in
        heading ← read AppWorkflowMetadata.getWorkflowName metadata;
        description ← read AppWorkflowMetadata.getWorkflowAnnotation metadata;
        workflowArguments ← read AppWorkflowMetadata.getArguments metadata;
        let content :=
          [ format ("# %s" +:+ lineFeed +:+ lineFeed) [ heading ];
            format ("%s" +:+ lineFeed +:+ lineFeed) [ description ];
            format ("## Arguments" +:+ lineFeed +:+ lineFeed) [] ]
          ++ (if (size workflowArguments =? 0)%nat
              then [ "This activity does not define any arguments." +:+ lineFeed ]
              else [ "| Name | Purpose | Direction | Type | Default Value |" +:+ lineFeed;
                     "| ---- | ------- | --------- | ---- | ------------- |" +:+ lineFeed ]
                   ++ map row (visit workflowArguments)) in
        Return (outputFilePath, join content "") in
      match prepared with
      | Return (outputFilePath, text) => writeFileSync outputFilePath text files
      | Throw e => (Throw e, files)
      end
  end.

End Environment.

End OutputMarkdownEarlier.

(** ** src/app/OutputMarkdown.js, the later revision (first half of the
    file): [writeFile] on a model of part_006 *)

Module OutputMarkdown.
Import Js JsText.

Record OutputMarkdown : Type := { outputPath : string }.

Definition row (arg : Argument) : string :=
  format ("|%s|%s|%s|%s|%s|" +:+ lineFeed)
    [ name arg; annotation arg; replace (direction arg) "Argument" "";
      type arg; defaultValue arg ].

Section Environment.

(** [path.sep], [path.join] of two strings, and [fs.writeFileSync]. *)
Variable pathSep : Ascii.ascii.
Variable pathJoin : string -> string -> string.
Variable FileSystem : Type.
Variable writeFileSync : string -> string -> method FileSystem unit.

(** The order in which [Map.prototype.forEach] visits the values. *)
Variable visit : gmap string Argument -> list Argument.

(** The [try] block and its [catch]: the file name derived from the
    project-relative path, or, when reading that path raises, from the
    workflow name. *)
Definition outputFilePath (this : OutputMarkdown) (metadata : Part006.WorkflowMetadata)
  : outcome string :=
  match read Part006.getProjectFilePath metadata with
  | Return projectFilePath =>
      Return (pathJoin (outputPath this)
                (replace (join (split projectFilePath pathSep) "-") ".xaml" ".md"))
  | Throw _ =>
      workflowName ← read Part006.getWorkflowName metadata;
      Return (pathJoin (outputPath this) (workflowName +:+ ".md"))
  end.

Definition writeFile (this : OutputMarkdown)
    (metadata : option Part006.WorkflowMetadata) : method FileSystem unit :=
  fun files =>
  match metadata with
  | None =>
      (Throw (TypeError "metadata parameter is required and must be a WorkflowMetadata object"),
       files)
  | Some metadata =>
      let prepared :=
        outputFilePath ← outputFilePath this metadata;
        heading ← read Part006.getWorkflowName metadata;
        description ← read Part006.getWorkflowAnnotation metadata;
        workflowArguments ← read Part006.getArguments metadata;
        let content :=
          [ format ("# %s" +:+ lineFeed +:+ lineFeed) [ heading ];
            format ("%s" +:+ lineFeed +:+ lineFeed) [ description ];
            format ("## Arguments" +:+ lineFeed +:+ lineFeed) [] ]
          ++ (if (size workflowArguments =? 0)%nat
              then [ "This activity does not define any arguments." +:+ lineFeed ]
              else [ "| Name | Purpose | Direction | Type | Default Value |" +:+ lineFeed;
                     "| ---- | ------- | --------- | ---- | ------------- |" +:+ lineFeed ]
                   ++ map row (visit workflowArguments)) in
        Return (outputFilePath, join content "") in
      match prepared with
      | Return (outputFilePath, text) => writeFileSync outputFilePath text files
      | Throw e => (Throw e, files)
      end
  end.

End Environment.

End OutputMarkdown.

(** ** Vocabulary of the statements *)

(** The code unit [c] stands at position [i] of [s]. *)
Definition occursAt (c : Ascii.ascii) (s : string) (i : nat) : Prop :=
  String.get i s = Some c.

(** Position [i] is the first one of [s] that holds [c]. *)
Definition firstAt (c : Ascii.ascii) (s : string) (i : nat) : Prop :=
  occursAt c s i /\ forall j, (j < i)%nat -> ~ occursAt c s j.

(** [s] holds no [c]. *)
Definition absent (c : Ascii.ascii) (s : string) : Prop :=
  forall i, ~ occursAt c s i.

(** The error is one the source constructs itself, with a message of its
    own, as opposed to one the engine or the file system raises. *)
Definition raisedBySource (e : Js.error) : bool :=
  match e with
  | Js.TypeError _ | Js.ReferenceError _ => true
  | Js.UndefinedAccess _ | Js.SystemError _ => false
  end.

(** The error message lists the three legal directions. *)
Definition namesLegalDirections (e : Js.error) : bool :=
  match e with
  | Js.TypeError message | Js.ReferenceError message =>
      0 <=? Js.indexOf message "InArgument|OutArgument|InOutArgument"
  | Js.UndefinedAccess _ | Js.SystemError _ => false
  end.

(** What one declared property contributes: the relation between a
    property element and the argument record read off it. *)
Definition declares (doc : Dom.document) (e : Dom.element) (arg : Argument) : Prop :=
  name arg = Dom.getAttribute e "Name" /\
  XamlProcessor.parseArgumentTypeAttribute (Js.str (Dom.getAttribute e "Type"))
  = Js.Return (direction arg, type arg) /\
  annotation arg = Dom.getAttribute e "sap2010:Annotation.AnnotationText" /\
  XamlProcessor.getArgumentDefaultValue (Some doc) (Js.str (Dom.getAttribute e "Name"))
  = Js.Return (defaultValue arg).

(** The callback [getWorkflowArguments] hands to [forEach], by name. *)
Definition argumentCallback (doc : Dom.document) (argument : Dom.element)
    (xamlArguments : list Argument) : Js.outcome (list Argument) :=
  let argumentName := Dom.getAttribute argument "Name" in
  let typeAttribute := Dom.getAttribute argument "Type" in
  argumentTypeInfo ← XamlProcessor.parseArgumentTypeAttribute (Js.str typeAttribute);
  let argumentAnnotation :=
    if Dom.hasAttribute argument "sap2010:Annotation.AnnotationText"
    then Dom.getAttribute argument "sap2010:Annotation.AnnotationText"
    else "" in
  defaultValue ← XamlProcessor.getArgumentDefaultValue (Some doc) (Js.str argumentName);
  Js.Return (xamlArguments ++
          [ {| name := argumentName;
               direction := fst argumentTypeInfo;
               type := snd argumentTypeInfo;
               annotation := argumentAnnotation;
               defaultValue := defaultValue |} ]).

(** The callback [getMetadata] hands to [forEach], by name. *)
Definition addDeclared (arg : Argument) (metadata : AppWorkflowMetadata.WorkflowMetadata)
  : Js.outcome AppWorkflowMetadata.WorkflowMetadata :=
  call (AppWorkflowMetadata.addArgument (Js.str (name arg)) (Js.str (direction arg))
          (Js.str (type arg)) (Js.str (annotation arg)) (Js.str (defaultValue arg)))
       metadata.

(** An argument record [addArgument] accepts: a non-empty name, a legal
    direction, a non-empty type. *)
Definition accepted (arg : Argument) : Prop :=
  name arg <> "" /\
  In (direction arg) AppWorkflowMetadata.validArgumentDirections /\
  type arg <> "".

(** [Map.set] of each record under its name, in order. *)
Definition setAll (base : gmap string Argument) (args : list Argument)
  : gmap string Argument :=
  foldl (fun acc arg => <[name arg := arg]> acc) base args.

(** Every code unit of [s] satisfies [p]. *)
Fixpoint every (p : Ascii.ascii -> bool) (s : string) : bool :=
  match s with
  | EmptyString => true
  | String c rest => p c && every p rest
  end.

(** [s] does not start with a line break. *)
Definition startsOnText (s : string) : bool :=
  match s with
  | EmptyString => true
  | String c _ => negb (Js.isLineBreak c)
  end.

(** The strings of [l] one after the other. *)
Definition concatenation (l : list string) : string := foldr String.append "" l.

(** [s] with every [c] replaced by [d]. *)
Fixpoint substitute (c d : Ascii.ascii) (s : string) : string :=
  match s with
  | EmptyString => EmptyString
  | String a rest => String (if Ascii.eqb a c then d else a) (substitute c d rest)
  end.

(** How a table row renders an argument: its five cells between bars,
    the direction without its suffix [Argument]. *)
Definition renders (arg : Argument) (row : string) : Prop :=
  exists cell,
    In cell [ "In"; "Out"; "InOut" ] /\ direction arg = cell +:+ "Argument" /\
    row = "|" +:+ name arg +:+ "|" +:+ annotation arg +:+ "|" +:+ cell +:+ "|"
          +:+ type arg +:+ "|" +:+ defaultValue arg +:+ "|" +:+ JsText.lineFeed.

(** A method that leaves the state as it was whenever it raises. *)
Definition failsafe {S A : Type} (m : method S A) : Prop :=
  forall s e, fst (m s) = Js.Throw e -> snd (m s) = s.

(** A method that never changes the state. *)
Definition readonly {S A : Type} (m : method S A) : Prop :=
  forall s, snd (m s) = s.



(** ** Sample data, after the test artefacts *)

(** A model as the two revisions build it for the test artefact. *)
Definition unoApp : AppWorkflowMetadata.WorkflowMetadata :=
  {| AppWorkflowMetadata.filePath := "./test/artefacts/uno.xaml";
     AppWorkflowMetadata.workflowName := None;
     AppWorkflowMetadata.workflowAnnotation := None;
     AppWorkflowMetadata.arguments := ∅ |}.

Definition uno006 : Part006.WorkflowMetadata :=
  {| Part006.filePath := "test/artefacts/uno.xaml";
     Part006.workflowName := None;
     Part006.workflowAnnotation := None;
     Part006.arguments := ∅;
     Part006.projectFilePath := None |}.

Definition activitiesNamespace : string :=
  "http://schemas.microsoft.com/netfx/2009/xaml/activities".

Definition xamlNamespace : string := "http://schemas.microsoft.com/winfx/2006/xaml".

(** A document with the content the tests expect of [uno.xaml]: class
    [uno], a sequence root with a display name and an annotation, four
    declared arguments, a default value for [Ichi] only. *)
Definition unoActivity : Dom.element :=
  Dom.Element activitiesNamespace "Activity"
      (list_to_map [ ("x:Class", "uno"); ("this:uno.Ichi", "A default string value") ])
      [ Dom.Element xamlNamespace "Members" ∅
          [ Dom.Element xamlNamespace "Property"
              (list_to_map
                 [ ("Name", "Ichi"); ("Type", "InArgument(x:String)");
                   ("sap2010:Annotation.AnnotationText",
                    "First argument using Japanese numbers.") ]) [];
            Dom.Element xamlNamespace "Property"
              (list_to_map
                 [ ("Name", "Ni"); ("Type", "InArgument(x:String)");
                   ("sap2010:Annotation.AnnotationText",
                    "Second argument using Japanese numbers.") ]) [];
            Dom.Element xamlNamespace "Property"
              (list_to_map
                 [ ("Name", "San"); ("Type", "InArgument(x:String)");
                   ("sap2010:Annotation.AnnotationText",
                    "Third argument using Japanese numbers.") ]) [];
            Dom.Element xamlNamespace "Property"
              (list_to_map
                 [ ("Name", "Shi"); ("Type", "InArgument(sd:DataTable)");
                   ("sap2010:Annotation.AnnotationText",
                    "Fourth argument using Japanese numbers.") ]) [] ];
        Dom.Element activitiesNamespace "Sequence"
          (list_to_map
             [ ("DisplayName", "uno");
               ("sap2010:Annotation.AnnotationText",
                "This test XAML file is used as an artefact for the majority of unit tests") ])
          [] ].

Definition unoDocument : Dom.document := [ unoActivity ].

(** A document with the content the tests expect of [dos.xaml]: class
    [dos], a sequence root named [dos] that carries no annotation. *)
Definition dosDocument : Dom.document :=
  [ Dom.Element activitiesNamespace "Activity" {[ "x:Class" := "dos" ]}
      [ Dom.Element activitiesNamespace "Sequence" {[ "DisplayName" := "dos" ]} [] ] ].

(** An activity with neither a flowchart nor a sequence below it. *)
Definition bareDocument : Dom.document :=
  [ Dom.Element activitiesNamespace "Activity" {[ "x:Class" := "tres" ]} [] ].


(** An activity with a flowchart and a sequence below it. *)
Definition flowDocument : Dom.document :=
  [ Dom.Element activitiesNamespace "Activity" {[ "x:Class" := "flow" ]}
      [ Dom.Element activitiesNamespace "Sequence"
          (list_to_map [ ("DisplayName", "steps");
                         ("sap2010:Annotation.AnnotationText", "A sequence") ]) [];
        Dom.Element activitiesNamespace "Flowchart"
          (list_to_map [ ("DisplayName", "chart");
                         ("sap2010:Annotation.AnnotationText", "A flowchart") ]) [] ] ].

(** A document that declares [Ichi] twice and then an argument whose
    type token carries the direction [Property]. *)
Definition repeatedDocument : Dom.document :=
  [ Dom.Element activitiesNamespace "Activity" {[ "x:Class" := "twice" ]}
      [ Dom.Element xamlNamespace "Members" ∅
          [ Dom.Element xamlNamespace "Property"
              (list_to_map [ ("Name", "Ichi"); ("Type", "InArgument(x:String)") ]) [];
            Dom.Element xamlNamespace "Property"
              (list_to_map [ ("Name", "Ichi"); ("Type", "OutArgument(x:Int32)") ]) [] ];
        Dom.Element activitiesNamespace "Sequence"
          (list_to_map [ ("DisplayName", "twice");
                         ("sap2010:Annotation.AnnotationText", "Declares Ichi twice") ]) [] ] ].

Definition illegalDocument : Dom.document :=
  [ Dom.Element activitiesNamespace "Activity" {[ "x:Class" := "odd" ]}
      [ Dom.Element xamlNamespace "Members" ∅
          [ Dom.Element xamlNamespace "Property"
              (list_to_map [ ("Name", "Ichi"); ("Type", "InArgument(x:String)") ]) [];
            Dom.Element xamlNamespace "Property"
              (list_to_map [ ("Name", "Ni"); ("Type", "Property(x:String)") ]) [] ];
        Dom.Element activitiesNamespace "Sequence"
          (list_to_map [ ("DisplayName", "odd");
                         ("sap2010:Annotation.AnnotationText", "An odd direction") ]) [] ] ].

(** The model [getMetadata] returns for [repeatedDocument]. *)
Definition twiceModel : AppWorkflowMetadata.WorkflowMetadata :=
  {| AppWorkflowMetadata.filePath := "twice.xaml";
     AppWorkflowMetadata.workflowName := Some "twice";
     AppWorkflowMetadata.workflowAnnotation := Some "Declares Ichi twice";
     AppWorkflowMetadata.arguments :=
       {[ "Ichi" := {| name := "Ichi"; direction := "OutArgument"; type := "Int32";
                       annotation := ""; defaultValue := "" |} ]} |}.

(** A model of part_006 with a name, an annotation and a
    project-relative path. *)
Definition nested006 : Part006.WorkflowMetadata :=
  {| Part006.filePath := "project/sub-folder/dos.xaml";
     Part006.workflowName := Some "dos";
     Part006.workflowAnnotation := Some "Second artefact";
     Part006.arguments := ∅;
     Part006.projectFilePath := Some "sub-folder/dos.xaml" |}.

(** An environment for [writeFile]: paths joined with a slash, a file
    system that maps paths to contents, the values of a map in the order
    of its listing. *)
Definition slashJoin (directory file : string) : string := directory +:+ "/" +:+ file.

Definition store (path text : string) : method (gmap string string) unit :=
  fun files => (Js.Return (), <[path := text]> files).

Definition values (m : gmap string Argument) : list Argument := (map_to_list m).*2.

(** A file system that holds the three documents. *)
Definition artefacts (path : string) : Js.outcome Dom.document :=
  if String.eqb path "./test/artefacts/uno.xaml" then Js.Return unoDocument
  else if String.eqb path "./test/artefacts/sub-folder/dos.xaml" then Js.Return dosDocument
  else if String.eqb path "./test/artefacts/tres.xaml" then Js.Return bareDocument
  else Js.Throw (Js.SystemError "ENOENT").

(** * Facts *)

Import Js.

(** ** Strings: positions, [indexOf] and [slice] *)

Section StringFacts.

Lemma append_cons c (s t : string) : String c s +:+ t = String c (s +:+ t).
Proof. reflexivity. Qed.

Lemma append_empty_r (s : string) : s +:+ "" = s.
Proof. induction s as [|c s IH]; [reflexivity | now rewrite append_cons, IH]. Qed.

Lemma occursAt_length c s i : occursAt c s i -> (i < String.length s)%nat.
Proof.
  unfold occursAt. revert i.
  induction s as [|a s IH]; intros [|i] H; simpl in *; try discriminate; try lia.
  apply IH in H. lia.
Qed.

Lemma prefix_char c a s :
  String.prefix (String c "") (String a s) = bool_decide (c = a).
Proof.
  simpl. destruct (ascii_dec c a) as [->|Hne].
  - rewrite bool_decide_eq_true_2 by reflexivity. now destruct s.
  - now rewrite bool_decide_eq_false_2.
Qed.

Lemma indexOfFrom_firstAt c s i k :
  firstAt c s i -> indexOfFrom (String c "") s k = k + Z.of_nat i.
Proof.
  revert i k. induction s as [|a s IH]; intros i k [Hi Hfirst].
  - destruct i; discriminate Hi.
  - cbn [indexOfFrom]. rewrite prefix_char.
    destruct i as [|i].
    + unfold occursAt in Hi. simpl in Hi. injection Hi as ->.
      rewrite bool_decide_eq_true_2 by reflexivity. lia.
    + rewrite bool_decide_eq_false_2.
      * rewrite (IH i (k + 1)); [lia|]. split; [exact Hi|].
        intros j Hj. apply (Hfirst (S j)). lia.
      * intros ->. apply (Hfirst 0%nat); [lia | reflexivity].
Qed.

Lemma indexOfFrom_absent c s k :
  absent c s -> indexOfFrom (String c "") s k = -1.
Proof.
  revert k. induction s as [|a s IH]; intros k Habs; [reflexivity|].
  cbn [indexOfFrom]. rewrite prefix_char, bool_decide_eq_false_2.
  - apply IH. intros j. apply (Habs (S j)).
  - intros ->. now apply (Habs 0%nat).
Qed.

Lemma firstAt_exists c s a : occursAt c s a -> exists i, (i <= a)%nat /\ firstAt c s i.
Proof.
  revert a. induction s as [|b s IH]; intros a Ha.
  - destruct a; discriminate Ha.
  - destruct (decide (b = c)) as [->|Hne].
    + exists 0%nat. repeat split; [lia | intros j Hj; lia].
    + destruct a as [|a].
      * unfold occursAt in Ha. simpl in Ha. congruence.
      * destruct (IH a Ha) as (i & Hle & Hi & Hfirst).
        exists (S i). repeat split; [lia | exact Hi |].
        intros [|j] Hj; [unfold occursAt; simpl; congruence|].
        apply Hfirst. lia.
Qed.

Lemma slice_prefix s (i : nat) :
  (i <= String.length s)%nat -> slice s 0 (Z.of_nat i) = String.substring 0 i s.
Proof.
  intros Hi. unfold slice. cbn [Z.ltb Z.compare].
  destruct (Z.of_nat i <? 0) eqn:E; [lia|].
  f_equal; lia.
Qed.

Lemma slice_between s (j k : nat) :
  (j < String.length s)%nat -> (k <= String.length s)%nat ->
  slice s (Z.of_nat j + 1) (Z.of_nat k) = String.substring (S j) (k - S j) s.
Proof.
  intros Hj Hk. unfold slice.
  destruct (Z.of_nat j + 1 <? 0) eqn:E1; [lia|].
  destruct (Z.of_nat k <? 0) eqn:E2; [lia|].
  f_equal; lia.
Qed.

Lemma substring_init_last s :
  s <> "" ->
  exists c, s = String.substring 0 (String.length s - 1) s +:+ String c "".
Proof.
  induction s as [|a s IH]; [congruence|]. intros _.
  destruct s as [|b s].
  - exists a. reflexivity.
  - destruct IH as [c Hc]; [congruence|]. exists c.
    replace (String.length (String a (String b s)) - 1)%nat
      with (S (String.length (String b s) - 1)) by (simpl; lia).
    cbn [String.substring]. rewrite append_cons. f_equal. exact Hc.
Qed.

Lemma slice_drop_last s :
  slice s 0 (-1) = String.substring 0 (String.length s - 1) s.
Proof.
  unfold slice. cbn [Z.ltb Z.compare]. f_equal; lia.
Qed.

End StringFacts.

(** ** Parameter guards *)

Section Guards.

Lemma requiredString_str (s : string) : s <> "" -> requiredString (str s) = Some s.
Proof.
  intros Hs. unfold requiredString. simpl.
  destruct (String.eqb_spec s ""); [contradiction | reflexivity].
Qed.

Lemma requiredString_Some (v : value) (s : string) :
  requiredString v = Some s -> v = str s /\ s <> "".
Proof.
  unfold requiredString.
  destruct v as [| |b|n|t|]; simpl; try (destruct b); try (destruct (n =? 0)); try discriminate.
  destruct (String.eqb_spec t ""); simpl; [discriminate|].
  intros [= ->]. split; [reflexivity | assumption].
Qed.

Lemma requiredString_None (v : value) :
  requiredString v = None -> forall s, v = str s -> s = "".
Proof.
  intros Hv s ->. destruct (decide (s = "")) as [|Hne]; [assumption|].
  rewrite requiredString_str in Hv by assumption. discriminate.
Qed.

Lemma stringParameter_str (s : string) : stringParameter (str s) = Some s.
Proof. reflexivity. Qed.

Lemma stringParameter_Some (v : value) (s : string) :
  stringParameter v = Some s -> v = str s.
Proof.
  unfold stringParameter. destruct v; simpl; try discriminate. now intros [= ->].
Qed.

Lemma includes_In (arr : list string) (x : string) :
  includes arr x = true <-> In x arr.
Proof.
  induction arr as [|y arr IH]; simpl; [split; [discriminate | tauto]|].
  rewrite orb_true_iff, IH. destruct (String.eqb_spec y x); intuition congruence.
Qed.

End Guards.

(** ** The type/direction descriptor parser *)

Section Decoder.
Import XamlProcessor.

Lemma occursAt_nonempty c s i : occursAt c s i -> s <> "".
Proof. intros H ->. destruct i; discriminate H. Qed.

Lemma parse_firstAt token i j k :
  firstAt "(" token i -> firstAt ":" token j -> firstAt ")" token k ->
  parseArgumentTypeAttribute (str token)
  = Return (String.substring 0 i token, String.substring (S j) (k - S j) token).
Proof.
  intros Hi Hj Hk. unfold parseArgumentTypeAttribute.
  rewrite requiredString_str by exact (occursAt_nonempty _ _ _ (proj1 Hi)).
  unfold indexOf.
  rewrite (indexOfFrom_firstAt _ _ _ _ Hi), (indexOfFrom_firstAt _ _ _ _ Hj),
    (indexOfFrom_firstAt _ _ _ _ Hk).
  pose proof (occursAt_length _ _ _ (proj1 Hi)).
  pose proof (occursAt_length _ _ _ (proj1 Hj)).
  pose proof (occursAt_length _ _ _ (proj1 Hk)).
  rewrite !Z.add_0_l, slice_prefix, slice_between by lia. reflexivity.
Qed.

(** C4.  A token that holds a [(], then a [:], then a [)] decodes to the
    pair (D, T): D is the token up to its first [(], T is what stands
    strictly between its first [:] and its first [)].  Nothing else of the
    token, the namespace prefix included, enters the result. *)
Theorem parseArgumentTypeAttribute_decodes (token : string) (a b c : nat) :
  occursAt "(" token a -> occursAt ":" token b -> occursAt ")" token c ->
  (a < b < c)%nat ->
  exists i j k,
    firstAt "(" token i /\ firstAt ":" token j /\ firstAt ")" token k /\
    parseArgumentTypeAttribute (str token)
    = Return (String.substring 0 i token, String.substring (S j) (k - S j) token).
Proof.
  intros Ha Hb Hc _.
  destruct (firstAt_exists _ _ _ Ha) as (i & _ & Hi).
  destruct (firstAt_exists _ _ _ Hb) as (j & _ & Hj).
  destruct (firstAt_exists _ _ _ Hc) as (k & _ & Hk).
  exists i, j, k. repeat split; try apply Hi; try apply Hj; try apply Hk.
  now apply parse_firstAt.
Qed.

(** The decoding of [InOutArgument(x:String)]. *)
Lemma parseArgumentTypeAttribute_decodes_InOut :
  exists i j k,
    firstAt "(" "InOutArgument(x:String)" i /\ firstAt ":" "InOutArgument(x:String)" j /\
    firstAt ")" "InOutArgument(x:String)" k /\
    parseArgumentTypeAttribute (str "InOutArgument(x:String)")
    = Return (String.substring 0 i "InOutArgument(x:String)",
              String.substring (S j) (k - S j) "InOutArgument(x:String)").
Proof.
  apply (parseArgumentTypeAttribute_decodes "InOutArgument(x:String)" 13 15 22);
    [reflexivity | reflexivity | reflexivity | lia].
Defined.

(** C3, as the code has it.  The parser has no structural check: every
    non-empty token yields a pair, also one that misses a delimiter; with
    no [(] the direction is the token without its last code unit.  The
    only failure is the TypeError for an empty or non-string token. *)
Theorem parseArgumentTypeAttribute_accepts_malformed :
  (forall token, token <> "" ->
     exists d t, parseArgumentTypeAttribute (str token) = Return (d, t)) /\
  (forall token, token <> "" -> absent "(" token ->
     exists d t c, parseArgumentTypeAttribute (str token) = Return (d, t) /\
                   token = d +:+ String c "") /\
  (forall v e, parseArgumentTypeAttribute v = Throw e ->
     e = TypeError "argumentType parameter is required and must be a string" /\
     forall s, v = str s -> s = "").
Proof.
  split; [|split].
  - intros token Hne. unfold parseArgumentTypeAttribute.
    rewrite requiredString_str by assumption. eauto.
  - intros token Hne Habs. unfold parseArgumentTypeAttribute.
    rewrite requiredString_str by assumption.
    destruct (substring_init_last token Hne) as [c Hc].
    do 2 eexists. exists c. split; [reflexivity|].
    unfold indexOf. rewrite (indexOfFrom_absent _ _ _ Habs), slice_drop_last. exact Hc.
  - intros v e. unfold parseArgumentTypeAttribute.
    destruct (requiredString v) eqn:Hv; [discriminate|].
    intros [= <-]. split; [reflexivity|]. now apply requiredString_None.
Qed.

Lemma absent_paren_InArgument : absent "(" "InArgument".
Proof.
  intros i. unfold occursAt.
  do 10 (destruct i as [|i]; [discriminate|]). destruct i; discriminate.
Qed.

Lemma parseArgumentTypeAttribute_accepts_InArgument :
  exists d t c,
    parseArgumentTypeAttribute (str "InArgument") = Return (d, t) /\
    "InArgument" = d +:+ String c "".
Proof.
  destruct parseArgumentTypeAttribute_accepts_malformed as (_ & Hmissing & _).
  apply Hmissing; [discriminate | exact absent_paren_InArgument].
Defined.

(** C3 fails as stated: [InArgument] holds none of the delimiters, and the
    parser returns a pair of truncated copies of it. *)
Lemma parseArgumentTypeAttribute_no_delimiters :
  parseArgumentTypeAttribute (str "InArgument") = Return ("InArgumen", "InArgumen").
Proof. reflexivity. Qed.

End Decoder.

(** ** Tokens written D(p:T) *)

Section Shape.
Import XamlProcessor.

Lemma append_assoc (s t u : string) : (s +:+ t) +:+ u = s +:+ t +:+ u.
Proof. induction s as [|c s IH]; [reflexivity | now rewrite !append_cons, IH]. Qed.

Lemma append_length (s t : string) :
  String.length (s +:+ t) = (String.length s + String.length t)%nat.
Proof. induction s as [|c s IH]; [reflexivity | rewrite append_cons; simpl; now rewrite IH]. Qed.

Lemma firstAt_append c (u w : string) :
  absent c u -> firstAt c (u +:+ String c w) (String.length u).
Proof.
  induction u as [|a u IH]; intros Habs.
  - split; [reflexivity | intros j Hj; simpl in Hj; lia].
  - assert (Hu : absent c u) by (intros j; apply (Habs (S j))).
    destruct (IH Hu) as [Hat Hfirst]. rewrite append_cons. split; [exact Hat|].
    intros [|j] Hj.
    + intros Hc. apply (Habs 0%nat). exact Hc.
    + apply Hfirst. simpl in Hj. lia.
Qed.

Lemma absent_append c (u w : string) : absent c u -> absent c w -> absent c (u +:+ w).
Proof.
  induction u as [|a u IH]; intros Hu Hw; [exact Hw|].
  rewrite append_cons. intros [|j].
  - apply (Hu 0%nat).
  - apply IH; [intros i; apply (Hu (S i)) | exact Hw].
Qed.

Lemma absent_cons c a (u : string) : a <> c -> absent c u -> absent c (String a u).
Proof.
  intros Hne Hu [|j]; [unfold occursAt; simpl; congruence | apply Hu].
Qed.

Lemma substring_append_prefix (t w : string) :
  String.substring 0 (String.length t) (t +:+ w) = t.
Proof.
  induction t as [|b t IH]; [now destruct w|].
  rewrite append_cons. simpl. now rewrite IH.
Qed.

Lemma substring_append_middle (u t w : string) :
  String.substring (String.length u) (String.length t) (u +:+ t +:+ w) = t.
Proof.
  induction u as [|a u IH]; [exact (substring_append_prefix t w)|].
  rewrite append_cons. exact IH.
Qed.

(** A token written [D(p:T)], followed by anything: [D] holds none of the
    delimiters, [p] no [:] and no [)], [T] no [)].  It decodes to (D, T)
    whatever the prefix [p]. *)
Theorem parseArgumentTypeAttribute_shape (D p T rest : string) :
  absent "(" D -> absent ":" D -> absent ")" D ->
  absent ":" p -> absent ")" p -> absent ")" T ->
  parseArgumentTypeAttribute (str (D +:+ "(" +:+ p +:+ ":" +:+ T +:+ ")" +:+ rest))
  = Return (D, T).
Proof.
  intros HD1 HD2 HD3 Hp2 Hp3 HT3.
  set (token := D +:+ "(" +:+ p +:+ ":" +:+ T +:+ ")" +:+ rest).
  assert (Hi : firstAt "(" token (String.length D)) by now apply firstAt_append.
  assert (Hj : firstAt ":" token (String.length (D +:+ "(" +:+ p))).
  { unfold token. rewrite <- (append_assoc D "(" (p +:+ _)), <- (append_assoc (D +:+ "(") p).
    rewrite (append_assoc D "(" p). apply firstAt_append.
    apply absent_append; [assumption|]. apply absent_cons; [discriminate | assumption]. }
  assert (Hk : firstAt ")" token (String.length (D +:+ "(" +:+ p +:+ ":" +:+ T))).
  { unfold token.
    replace (D +:+ "(" +:+ p +:+ ":" +:+ T +:+ ")" +:+ rest)
      with ((D +:+ "(" +:+ p +:+ ":" +:+ T) +:+ ")" +:+ rest)
      by now rewrite !append_assoc.
    apply firstAt_append.
    apply absent_append; [assumption|]. apply absent_cons; [discriminate|].
    apply absent_append; [assumption|]. apply absent_cons; [discriminate | assumption]. }
  rewrite (parse_firstAt _ _ _ _ Hi Hj Hk). f_equal. f_equal.
  - apply substring_append_prefix.
  - replace (String.length (D +:+ "(" +:+ p +:+ ":" +:+ T) - S (String.length (D +:+ "(" +:+ p)))%nat
      with (String.length T)
      by (rewrite !append_length; simpl; lia).
    replace (S (String.length (D +:+ "(" +:+ p))) with (String.length (D +:+ "(" +:+ p +:+ ":"))
      by (rewrite !append_length; simpl; lia).
    unfold token.
    replace (D +:+ "(" +:+ p +:+ ":" +:+ T +:+ ")" +:+ rest)
      with ((D +:+ "(" +:+ p +:+ ":") +:+ T +:+ ")" +:+ rest)
      by now rewrite !append_assoc.
    apply substring_append_middle.
Qed.

Lemma parseArgumentTypeAttribute_shape_DataTable :
  parseArgumentTypeAttribute (str "InArgument(sd:DataTable)") = Return ("InArgument", "DataTable").
Proof.
  apply (parseArgumentTypeAttribute_shape "InArgument" "sd" "DataTable" "");
    intros i; unfold occursAt;
    (do 12 (destruct i as [|i]; [discriminate|])); destruct i; discriminate.
Defined.

End Shape.

(** ** The model: src/app/WorkflowMetadata.js *)

(** Case analysis along the guards of a method body. *)
Ltac guard_cases :=
  repeat match goal with
    | |- context [match requiredString ?v with _ => _ end] =>
        let E := fresh "Hreq" in destruct (requiredString v) eqn:E
    | |- context [match stringParameter ?v with _ => _ end] =>
        let E := fresh "Hstr" in destruct (stringParameter v) eqn:E
    | |- context [if negb (includes ?l ?d) then _ else _] =>
        let E := fresh "Hinc" in destruct (includes l d) eqn:E; cbn [negb]
    end.

Ltac guard_facts :=
  repeat match goal with
    | H : requiredString _ = Some _ |- _ => apply requiredString_Some in H; destruct H as [-> ?]
    | H : stringParameter _ = Some _ |- _ => apply stringParameter_Some in H; subst
    | H : includes _ _ = true |- _ => apply includes_In in H
    end.

Section AppFacts.
Import AppWorkflowMetadata.

Lemma addArgument_Throw name direction type annotation defaultValue this e this' :
  addArgument name direction type annotation defaultValue this = (Throw e, this') ->
  this' = this /\ exists message, e = TypeError message.
Proof.
  unfold addArgument. guard_cases; intros [= <- <-]; eauto.
Qed.

Lemma addArgument_Return name direction type annotation defaultValue this u this' :
  addArgument name direction type annotation defaultValue this = (Return u, this') ->
  exists n d t a v,
    name = str n /\ n <> "" /\ direction = str d /\ In d validArgumentDirections /\
    type = str t /\ t <> "" /\ annotation = str a /\ defaultValue = str v /\
    this' = {| filePath := filePath this; workflowName := workflowName this;
               workflowAnnotation := workflowAnnotation this;
               arguments :=
                 <[n := {| name := n; direction := d; type := t;
                           annotation := a; defaultValue := v |}]> (arguments this) |}.
Proof.
  unfold addArgument. guard_cases; intros [= <-]. guard_facts.
  do 5 eexists. repeat split; eauto.
Qed.

Lemma addArgument_valid n d t a v this :
  n <> "" -> In d validArgumentDirections -> t <> "" ->
  addArgument (str n) (str d) (str t) (str a) (str v) this
  = (Return (),
     {| filePath := filePath this; workflowName := workflowName this;
        workflowAnnotation := workflowAnnotation this;
        arguments :=
          <[n := {| name := n; direction := d; type := t;
                    annotation := a; defaultValue := v |}]> (arguments this) |}).
Proof.
  intros Hn Hd Ht. unfold addArgument.
  assert (d <> "") by (intros ->; simpl in Hd; intuition discriminate).
  rewrite !requiredString_str, !stringParameter_str by assumption.
  apply includes_In in Hd. now rewrite Hd.
Qed.

Lemma addArgument_outside name direction type annotation defaultValue this :
  (forall d, direction = str d -> ~ In d validArgumentDirections) ->
  exists message,
    addArgument name direction type annotation defaultValue this
    = (Throw (TypeError message), this).
Proof.
  intros Hout. unfold addArgument. guard_cases; eauto.
  guard_facts. exfalso. eapply Hout; eauto.
Qed.

Lemma addArgument_illegal n d type annotation defaultValue this :
  n <> "" -> d <> "" -> ~ In d validArgumentDirections ->
  addArgument (str n) (str d) type annotation defaultValue this
  = (Throw (TypeError "direction parameter must be one of InArgument|OutArgument|InOutArgument"),
     this).
Proof.
  intros Hn Hd Hout. unfold addArgument.
  rewrite !requiredString_str by assumption.
  destruct (includes validArgumentDirections d) eqn:Hinc; [|reflexivity].
  apply includes_In in Hinc. contradiction.
Qed.

Lemma reachable_directions this :
  reachable this ->
  map_Forall (fun _ arg => In (direction arg) validArgumentDirections) (arguments this).
Proof.
  induction 1 as [fp this Hnew | v this _ IH | v this _ IH | n d t a v this _ IH].
  - unfold constructor in Hnew. destruct (requiredString fp); [|discriminate].
    injection Hnew as <-. apply map_Forall_empty.
  - unfold setWorkflowName. destruct (requiredString v); exact IH.
  - unfold setWorkflowAnnotation. destruct (requiredString v); exact IH.
  - destruct (addArgument n d t a v this) as [[u|e] this'] eqn:Hadd; cbn [snd].
    + apply addArgument_Return in Hadd as (? & ? & ? & ? & ? & _ & _ & _ & Hin & _ & _ & _ & _ & ->).
      cbn [arguments]. apply map_Forall_insert_2; assumption.
    + apply addArgument_Throw in Hadd as [-> _]. exact IH.
Qed.

End AppFacts.

(** ** What part_006 stores: [trim] and the bracket replacements *)

Section Normalisation.

Lemma trimEnd_keeps_last (s : string) (c : Ascii.ascii) :
  isWhiteSpace c = false -> trimEnd (s +:+ String c "") = s +:+ String c "".
Proof.
  intros Hc. induction s as [|a s IH].
  - simpl. now rewrite Hc.
  - rewrite append_cons. cbn [trimEnd]. rewrite IH.
    destruct s; reflexivity.
Qed.

Lemma trim_bracketed (v : string) : trim ("[" +:+ v +:+ "]") = "[" +:+ v +:+ "]".
Proof.
  unfold trim. rewrite append_cons. cbn [trimStart].
  change (isWhiteSpace "[") with false. cbn iota.
  change (String "[" ("" +:+ v +:+ "]")) with (String "[" v +:+ "]").
  now apply trimEnd_keeps_last.
Qed.

Lemma replace_open (rest : string) : replace ("[" +:+ rest) "[" "" = rest.
Proof. destruct rest; reflexivity. Qed.

Lemma replace_close (v : string) : absent "]" v -> replace (v +:+ "]") "]" "" = v.
Proof.
  induction v as [|a v IH]; intros Habs; [reflexivity|].
  rewrite append_cons. cbn [replace]. rewrite prefix_char, bool_decide_eq_false_2.
  - f_equal. apply IH. intros j. apply (Habs (S j)).
  - intros <-. now apply (Habs 0%nat).
Qed.

Lemma strip_bracketed (v : string) :
  absent "]" v -> replace (replace (trim ("[" +:+ v +:+ "]")) "[" "") "]" "" = v.
Proof.
  intros Habs. rewrite trim_bracketed, replace_open. now apply replace_close.
Qed.

End Normalisation.

(** ** The model: part_006 *)

Section Part006Facts.
Import Part006.

Lemma trim_direction d : In d validArgumentDirections -> trim d = d.
Proof. simpl. intros [<-|[<-|[<-|[]]]]; reflexivity. Qed.

Lemma addArgument_Throw_006 name direction type annotation defaultValue this e this' :
  addArgument name direction type annotation defaultValue this = (Throw e, this') ->
  this' = this /\ exists message, e = TypeError message.
Proof.
  unfold addArgument. guard_cases; intros [= <- <-]; eauto.
Qed.

Lemma addArgument_Return_006 name direction type annotation defaultValue this u this' :
  addArgument name direction type annotation defaultValue this = (Return u, this') ->
  exists n d t a v,
    name = str n /\ n <> "" /\ direction = str d /\ In d validArgumentDirections /\
    type = str t /\ t <> "" /\ annotation = str a /\ defaultValue = str v /\
    this' = {| filePath := filePath this; workflowName := workflowName this;
               workflowAnnotation := workflowAnnotation this;
               arguments :=
                 <[n := {| name := trim n; direction := trim d; type := trim t;
                           annotation := replaceLineBreaks (trim a) " ";
                           defaultValue := replace (replace (trim v) "[" "") "]" "" |}]>
                   (arguments this);
               projectFilePath := projectFilePath this |}.
Proof.
  unfold addArgument. guard_cases; intros [= <-]. guard_facts.
  do 5 eexists. repeat split; eauto.
Qed.

Lemma addArgument_valid_006 n d t a v this :
  n <> "" -> In d validArgumentDirections -> t <> "" ->
  addArgument (str n) (str d) (str t) (str a) (str v) this
  = (Return (),
     {| filePath := filePath this; workflowName := workflowName this;
        workflowAnnotation := workflowAnnotation this;
        arguments :=
          <[n := {| name := trim n; direction := d; type := trim t;
                    annotation := replaceLineBreaks (trim a) " ";
                    defaultValue := replace (replace (trim v) "[" "") "]" "" |}]>
            (arguments this);
        projectFilePath := projectFilePath this |}).
Proof.
  intros Hn Hd Ht. unfold addArgument.
  assert (d <> "") by (intros ->; simpl in Hd; intuition discriminate).
  rewrite !requiredString_str, !stringParameter_str by assumption.
  rewrite (trim_direction d Hd).
  apply includes_In in Hd. now rewrite Hd.
Qed.

Lemma addArgument_outside_006 name direction type annotation defaultValue this :
  (forall d, direction = str d -> ~ In d validArgumentDirections) ->
  exists message,
    addArgument name direction type annotation defaultValue this
    = (Throw (TypeError message), this).
Proof.
  intros Hout. unfold addArgument. guard_cases; eauto.
  guard_facts. exfalso. eapply Hout; eauto.
Qed.

Lemma addArgument_illegal_006 n d type annotation defaultValue this :
  n <> "" -> d <> "" -> ~ In d validArgumentDirections ->
  addArgument (str n) (str d) type annotation defaultValue this
  = (Throw (TypeError "direction parameter must be one of InArgument|OutArgument|InOutArgument"),
     this).
Proof.
  intros Hn Hd Hout. unfold addArgument.
  rewrite !requiredString_str by assumption.
  destruct (includes validArgumentDirections d) eqn:Hinc; [|reflexivity].
  apply includes_In in Hinc. contradiction.
Qed.

Lemma reachable_directions_006 this :
  reachable this ->
  map_Forall (fun _ arg => In (direction arg) validArgumentDirections) (arguments this).
Proof.
  induction 1 as [nm fp this Hnew | v this _ IH | v this _ IH | rel v this _ IH
                 | n d t a v this _ IH].
  - unfold constructor in Hnew. destruct (requiredString fp); [|discriminate].
    injection Hnew as <-. apply map_Forall_empty.
  - unfold setWorkflowName. destruct (requiredString v); exact IH.
  - unfold setWorkflowAnnotation. destruct (requiredString v); exact IH.
  - unfold setProjectFilePath. destruct (requiredString v); exact IH.
  - destruct (addArgument n d t a v this) as [[u|e] this'] eqn:Hadd; cbn [snd].
    + apply addArgument_Return_006 in Hadd as (? & ? & ? & ? & ? & _ & _ & _ & Hin & _ & _ & _ & _ & ->).
      cbn [arguments]. apply map_Forall_insert_2; [|assumption].
      cbn [direction]. now rewrite trim_direction.
    + apply addArgument_Throw_006 in Hadd as [-> _]. exact IH.
Qed.

End Part006Facts.

(** ** The claims on the model *)

Section ModelClaims.

(** C5, as the code has it.  In both revisions: a direction outside the
    three variants makes [addArgument] raise a TypeError and leave the
    model as it was; the error lists the legal directions when the name
    and the direction are non-empty strings; a legal direction with a
    non-empty name and type and string annotation and default value is
    stored and found under the name in [getArguments()]; every argument
    of a model built through the methods has a legal direction. *)
Theorem addArgument_checks_direction :
  (forall this name direction type annotation defaultValue,
     (forall d, direction = str d -> ~ In d AppWorkflowMetadata.validArgumentDirections) ->
     exists message,
       AppWorkflowMetadata.addArgument name direction type annotation defaultValue this
       = (Throw (TypeError message), this)) /\
  (forall this n d type annotation defaultValue,
     n <> "" -> d <> "" -> ~ In d AppWorkflowMetadata.validArgumentDirections ->
     exists e,
       AppWorkflowMetadata.addArgument (str n) (str d) type annotation defaultValue this
       = (Throw e, this) /\ namesLegalDirections e = true) /\
  (forall this n d t a v,
     n <> "" -> In d AppWorkflowMetadata.validArgumentDirections -> t <> "" ->
     exists this',
       AppWorkflowMetadata.addArgument (str n) (str d) (str t) (str a) (str v) this
       = (Return (), this') /\
       exists args,
         AppWorkflowMetadata.getArguments this' = (Return args, this') /\
         args !! n = Some {| name := n; direction := d; type := t;
                             annotation := a; defaultValue := v |}) /\
  (forall this,
     AppWorkflowMetadata.reachable this ->
     map_Forall (fun _ arg => In (direction arg) AppWorkflowMetadata.validArgumentDirections)
                (AppWorkflowMetadata.arguments this)) /\
  (forall this name direction type annotation defaultValue,
     (forall d, direction = str d -> ~ In d Part006.validArgumentDirections) ->
     exists message,
       Part006.addArgument name direction type annotation defaultValue this
       = (Throw (TypeError message), this)) /\
  (forall this n d type annotation defaultValue,
     n <> "" -> d <> "" -> ~ In d Part006.validArgumentDirections ->
     exists e,
       Part006.addArgument (str n) (str d) type annotation defaultValue this
       = (Throw e, this) /\ namesLegalDirections e = true) /\
  (forall this n d t a v,
     n <> "" -> In d Part006.validArgumentDirections -> t <> "" ->
     exists this',
       Part006.addArgument (str n) (str d) (str t) (str a) (str v) this
       = (Return (), this') /\
       exists args arg,
         Part006.getArguments this' = (Return args, this') /\
         args !! n = Some arg /\ direction arg = d) /\
  (forall this,
     Part006.reachable this ->
     map_Forall (fun _ arg => In (direction arg) Part006.validArgumentDirections)
                (Part006.arguments this)).
Proof.
  repeat apply conj.
  - intros. now apply addArgument_outside.
  - intros this n d ty an dv Hn Hd Hout. eexists. split.
    + now apply addArgument_illegal.
    + reflexivity.
  - intros this n d t a v Hn Hd Ht. eexists. split.
    + now apply addArgument_valid.
    + eexists. split; [reflexivity|]. cbn. apply lookup_insert_eq.
  - apply reachable_directions.
  - intros. now apply addArgument_outside_006.
  - intros this n d ty an dv Hn Hd Hout. eexists. split.
    + now apply addArgument_illegal_006.
    + reflexivity.
  - intros this n d t a v Hn Hd Ht. eexists. split.
    + now apply addArgument_valid_006.
    + do 2 eexists. split; [reflexivity|]. split; [cbn; apply lookup_insert_eq | reflexivity].
  - apply reachable_directions_006.
Qed.

Lemma addArgument_checks_direction_both :
  exists e,
    AppWorkflowMetadata.addArgument (str "Name") (str "both") undefined undefined undefined unoApp
    = (Throw e, unoApp) /\ namesLegalDirections e = true.
Proof.
  destruct addArgument_checks_direction as (_ & Hillegal & _).
  apply Hillegal; [discriminate | discriminate |].
  simpl. intros [H|[H|[H|[]]]]; discriminate H.
Defined.

(** C5 fails as stated: the empty direction is outside the three variants,
    and the error raised for it does not list them. *)
Lemma addArgument_empty_direction :
  fst (AppWorkflowMetadata.addArgument (str "Name") (str "") (str "String") (str "") (str "") unoApp)
  = Throw (TypeError "direction parameter is required and must be a string") /\
  fst (Part006.addArgument (str "Name") (str "") (str "String") (str "") (str "") uno006)
  = Throw (TypeError "direction parameter is required and must be a string") /\
  namesLegalDirections (TypeError "direction parameter is required and must be a string") = false.
Proof. repeat split. Qed.

(** C10.  A call of [addArgument] that returns changes the entry of the
    [arguments] map under the given name and nothing else: the other
    fields and the entries under every other key are as before. *)
Theorem addArgument_frame :
  (forall this this' name direction type annotation defaultValue,
     AppWorkflowMetadata.addArgument name direction type annotation defaultValue this
     = (Return (), this') ->
     exists n,
       name = str n /\
       AppWorkflowMetadata.filePath this' = AppWorkflowMetadata.filePath this /\
       AppWorkflowMetadata.workflowName this' = AppWorkflowMetadata.workflowName this /\
       AppWorkflowMetadata.workflowAnnotation this'
       = AppWorkflowMetadata.workflowAnnotation this /\
       forall k, k <> n ->
         AppWorkflowMetadata.arguments this' !! k = AppWorkflowMetadata.arguments this !! k) /\
  (forall this this' name direction type annotation defaultValue,
     Part006.addArgument name direction type annotation defaultValue this
     = (Return (), this') ->
     exists n,
       name = str n /\
       Part006.filePath this' = Part006.filePath this /\
       Part006.workflowName this' = Part006.workflowName this /\
       Part006.workflowAnnotation this' = Part006.workflowAnnotation this /\
       Part006.projectFilePath this' = Part006.projectFilePath this /\
       forall k, k <> n -> Part006.arguments this' !! k = Part006.arguments this !! k).
Proof.
  split.
  - intros this this' name direction type annotation defaultValue Hadd.
    apply addArgument_Return in Hadd as (n & d & t & a & v & -> & _ & _ & _ & _ & _ & _ & _ & ->).
    exists n. repeat split. intros k Hk. cbn. now apply lookup_insert_ne.
  - intros this this' name direction type annotation defaultValue Hadd.
    apply addArgument_Return_006 in Hadd
        as (n & d & t & a & v & -> & _ & _ & _ & _ & _ & _ & _ & ->).
    exists n. repeat split. intros k Hk. cbn. now apply lookup_insert_ne.
Qed.

Lemma addArgument_frame_Ichi :
  exists n,
    str "Ichi" = str n /\
    AppWorkflowMetadata.filePath
      (snd (AppWorkflowMetadata.addArgument (str "Ichi") (str "InArgument") (str "String")
              (str "") (str "") unoApp))
    = AppWorkflowMetadata.filePath unoApp /\
    AppWorkflowMetadata.workflowName
      (snd (AppWorkflowMetadata.addArgument (str "Ichi") (str "InArgument") (str "String")
              (str "") (str "") unoApp))
    = AppWorkflowMetadata.workflowName unoApp /\
    AppWorkflowMetadata.workflowAnnotation
      (snd (AppWorkflowMetadata.addArgument (str "Ichi") (str "InArgument") (str "String")
              (str "") (str "") unoApp))
    = AppWorkflowMetadata.workflowAnnotation unoApp /\
    forall k, k <> n ->
      AppWorkflowMetadata.arguments
        (snd (AppWorkflowMetadata.addArgument (str "Ichi") (str "InArgument") (str "String")
                (str "") (str "") unoApp)) !! k
      = AppWorkflowMetadata.arguments unoApp !! k.
Proof.
  destruct addArgument_frame as [Happ _].
  apply (Happ unoApp _ (str "Ichi") (str "InArgument") (str "String") (str "") (str "")).
  reflexivity.
Defined.

End ModelClaims.

(** ** The claims on the accessors *)

Section AccessorClaims.

(** C6, as the code has it.  In both revisions a getter raises the
    ReferenceError of its field while the field is undefined, as it is in
    a model fresh from the constructor.  Once a setter has returned, the
    getter of src/app/WorkflowMetadata.js returns the very string that was
    set; the getter of part_006 returns it trimmed. *)
Theorem getters_after_setters :
  (forall filePath this,
     AppWorkflowMetadata.constructor filePath = Return this ->
     AppWorkflowMetadata.workflowName this = None /\
     AppWorkflowMetadata.workflowAnnotation this = None) /\
  (forall this,
     AppWorkflowMetadata.workflowName this = None ->
     AppWorkflowMetadata.getWorkflowName this
     = (Throw (ReferenceError "The workflowName property has not been set."), this)) /\
  (forall this,
     AppWorkflowMetadata.workflowAnnotation this = None ->
     AppWorkflowMetadata.getWorkflowAnnotation this
     = (Throw (ReferenceError "The workflowAnnotation property has not been set."), this)) /\
  (forall this v this',
     AppWorkflowMetadata.setWorkflowName v this = (Return (), this') ->
     exists s, v = str s /\ AppWorkflowMetadata.getWorkflowName this' = (Return s, this')) /\
  (forall this v this',
     AppWorkflowMetadata.setWorkflowAnnotation v this = (Return (), this') ->
     exists s, v = str s /\ AppWorkflowMetadata.getWorkflowAnnotation this' = (Return s, this')) /\
  (forall normalize filePath this,
     Part006.constructor normalize filePath = Return this ->
     Part006.workflowName this = None /\ Part006.workflowAnnotation this = None) /\
  (forall this,
     Part006.workflowName this = None ->
     Part006.getWorkflowName this
     = (Throw (ReferenceError "The workflowName property has not been set."), this)) /\
  (forall this,
     Part006.workflowAnnotation this = None ->
     Part006.getWorkflowAnnotation this
     = (Throw (ReferenceError "The workflowAnnotation property has not been set."), this)) /\
  (forall this v this',
     Part006.setWorkflowName v this = (Return (), this') ->
     exists s, v = str s /\ Part006.getWorkflowName this' = (Return (trim s), this')) /\
  (forall this v this',
     Part006.setWorkflowAnnotation v this = (Return (), this') ->
     exists s, v = str s /\ Part006.getWorkflowAnnotation this' = (Return (trim s), this')).
Proof.
  repeat apply conj.
  - intros fp this. unfold AppWorkflowMetadata.constructor.
    destruct (requiredString fp); [|discriminate]. intros [= <-]. now split.
  - intros this Hunset. unfold AppWorkflowMetadata.getWorkflowName. now rewrite Hunset.
  - intros this Hunset. unfold AppWorkflowMetadata.getWorkflowAnnotation. now rewrite Hunset.
  - intros this v this'. unfold AppWorkflowMetadata.setWorkflowName.
    destruct (requiredString v) as [s|] eqn:Hv; intros [= <-].
    apply requiredString_Some in Hv as [-> _]. now exists s.
  - intros this v this'. unfold AppWorkflowMetadata.setWorkflowAnnotation.
    destruct (requiredString v) as [s|] eqn:Hv; intros [= <-].
    apply requiredString_Some in Hv as [-> _]. now exists s.
  - intros nm fp this. unfold Part006.constructor.
    destruct (requiredString fp); [|discriminate]. intros [= <-]. now split.
  - intros this Hunset. unfold Part006.getWorkflowName. now rewrite Hunset.
  - intros this Hunset. unfold Part006.getWorkflowAnnotation. now rewrite Hunset.
  - intros this v this'. unfold Part006.setWorkflowName.
    destruct (requiredString v) as [s|] eqn:Hv; intros [= <-].
    apply requiredString_Some in Hv as [-> _]. now exists s.
  - intros this v this'. unfold Part006.setWorkflowAnnotation.
    destruct (requiredString v) as [s|] eqn:Hv; intros [= <-].
    apply requiredString_Some in Hv as [-> _]. now exists s.
Qed.

Lemma getters_after_setters_uno :
  exists s,
    str "This is a test workflow name." = str s /\
    AppWorkflowMetadata.getWorkflowName
      (snd (AppWorkflowMetadata.setWorkflowName (str "This is a test workflow name.") unoApp))
    = (Return s,
       snd (AppWorkflowMetadata.setWorkflowName (str "This is a test workflow name.") unoApp)).
Proof.
  destruct getters_after_setters as (_ & _ & _ & Hset & _).
  apply (Hset unoApp). reflexivity.
Defined.

(** C6 fails as stated on part_006: a name set with a leading blank is
    read back without it. *)
Lemma getWorkflowName_trims :
  fst (Part006.getWorkflowName (snd (Part006.setWorkflowName (str " uno") uno006)))
  = Return "uno" /\
  fst (Part006.setWorkflowName (str " uno") uno006) = Return ().
Proof. split; reflexivity. Qed.

(** C7, as the code has it.  The setters are plain assignments: on a model
    whose field is already set, a later call with any non-empty string
    returns, and the getter then yields the later string (trimmed, in
    part_006); the earlier one is gone. *)
Theorem setters_overwrite (earlier later : string) :
  earlier <> "" -> later <> "" ->
  (forall this, exists this1 this2,
     AppWorkflowMetadata.setWorkflowName (str earlier) this = (Return (), this1) /\
     AppWorkflowMetadata.setWorkflowName (str later) this1 = (Return (), this2) /\
     AppWorkflowMetadata.getWorkflowName this2 = (Return later, this2)) /\
  (forall this, exists this1 this2,
     AppWorkflowMetadata.setWorkflowAnnotation (str earlier) this = (Return (), this1) /\
     AppWorkflowMetadata.setWorkflowAnnotation (str later) this1 = (Return (), this2) /\
     AppWorkflowMetadata.getWorkflowAnnotation this2 = (Return later, this2)) /\
  (forall this, exists this1 this2,
     Part006.setWorkflowName (str earlier) this = (Return (), this1) /\
     Part006.setWorkflowName (str later) this1 = (Return (), this2) /\
     Part006.getWorkflowName this2 = (Return (trim later), this2)) /\
  (forall this, exists this1 this2,
     Part006.setWorkflowAnnotation (str earlier) this = (Return (), this1) /\
     Part006.setWorkflowAnnotation (str later) this1 = (Return (), this2) /\
     Part006.getWorkflowAnnotation this2 = (Return (trim later), this2)).
Proof.
  intros Hfirst Hsecond. repeat apply conj; intros this; do 2 eexists.
  - unfold AppWorkflowMetadata.setWorkflowName.
    rewrite !requiredString_str by assumption. repeat split.
  - unfold AppWorkflowMetadata.setWorkflowAnnotation.
    rewrite !requiredString_str by assumption. repeat split.
  - unfold Part006.setWorkflowName.
    rewrite !requiredString_str by assumption. repeat split.
  - unfold Part006.setWorkflowAnnotation.
    rewrite !requiredString_str by assumption. repeat split.
Qed.

Lemma setters_overwrite_uno_dos :
  exists this1 this2,
    AppWorkflowMetadata.setWorkflowName (str "uno") unoApp = (Return (), this1) /\
    AppWorkflowMetadata.setWorkflowName (str "dos") this1 = (Return (), this2) /\
    AppWorkflowMetadata.getWorkflowName this2 = (Return "dos", this2).
Proof.
  apply (setters_overwrite "uno" "dos"); discriminate.
Defined.

(** C7 fails as stated: after the name [uno] is set, setting the unrelated
    name [dos] returns without an error and replaces it; so does a later
    annotation. *)
Lemma setWorkflowName_replaces :
  fst (AppWorkflowMetadata.getWorkflowName
         (snd (AppWorkflowMetadata.setWorkflowName (str "uno") unoApp)))
  = Return "uno" /\
  fst (AppWorkflowMetadata.setWorkflowName (str "dos")
         (snd (AppWorkflowMetadata.setWorkflowName (str "uno") unoApp)))
  = Return () /\
  fst (AppWorkflowMetadata.getWorkflowName
         (snd (AppWorkflowMetadata.setWorkflowName (str "dos")
                 (snd (AppWorkflowMetadata.setWorkflowName (str "uno") unoApp)))))
  = Return "dos".
Proof. repeat split. Qed.

End AccessorClaims.

(** ** The claim on stored default values *)

Section StorageClaims.

(** C8, as the code has it.  Adding an argument whose default value is
    written [[v]]: part_006 stores [v] when [v] itself holds no [ ] ];
    src/app/WorkflowMetadata.js stores the value as it was given, brackets
    included. *)
Theorem addArgument_default_brackets (n d t a v : string) :
  n <> "" -> In d Part006.validArgumentDirections -> t <> "" ->
  (forall this,
     absent "]" v ->
     exists this' arg,
       Part006.addArgument (str n) (str d) (str t) (str a) (str ("[" +:+ v +:+ "]")) this
       = (Return (), this') /\
       Part006.arguments this' !! n = Some arg /\ defaultValue arg = v) /\
  (forall this,
     exists this' arg,
       AppWorkflowMetadata.addArgument (str n) (str d) (str t) (str a)
         (str ("[" +:+ v +:+ "]")) this
       = (Return (), this') /\
       AppWorkflowMetadata.arguments this' !! n = Some arg /\
       defaultValue arg = "[" +:+ v +:+ "]").
Proof.
  intros Hn Hd Ht. split.
  - intros this Hv. do 2 eexists. split; [now apply addArgument_valid_006|].
    split; [cbn; apply lookup_insert_eq|]. cbn [defaultValue].
    now apply strip_bracketed.
  - intros this. do 2 eexists. split; [now apply addArgument_valid|].
    split; [cbn; apply lookup_insert_eq | reflexivity].
Qed.

Lemma absent_bracket_literal : absent "]" "New String() {}".
Proof.
  intros i. unfold occursAt.
  do 15 (destruct i as [|i]; [discriminate|]). destruct i; discriminate.
Qed.

Lemma addArgument_default_brackets_literal :
  exists this' arg,
    Part006.addArgument (str "Ichi") (str "InArgument") (str "String[]") (str "")
      (str ("[" +:+ "New String() {}" +:+ "]")) uno006
    = (Return (), this') /\
    Part006.arguments this' !! "Ichi" = Some arg /\ defaultValue arg = "New String() {}".
Proof.
  apply (addArgument_default_brackets "Ichi" "InArgument" "String[]" "" "New String() {}");
    [discriminate | left; reflexivity | discriminate | exact absent_bracket_literal].
Defined.

(** C8 fails as stated.  src/app/WorkflowMetadata.js keeps the brackets of
    [[abc]]; part_006 removes the first [ [ ] and the first [ ] ] only, so
    that of the bracketed [a]b] it stores [ab]] and not [a]b]. *)
Lemma addArgument_keeps_brackets :
  defaultValue <$>
    (AppWorkflowMetadata.arguments
       (snd (AppWorkflowMetadata.addArgument (str "Ichi") (str "InArgument") (str "String")
               (str "") (str "[abc]") unoApp)) !! "Ichi")
  = Some "[abc]" /\
  defaultValue <$>
    (Part006.arguments
       (snd (Part006.addArgument (str "Ichi") (str "InArgument") (str "String")
               (str "") (str "[a]b]") uno006)) !! "Ichi")
  = Some "ab]".
Proof. split; vm_compute; reflexivity. Qed.

End StorageClaims.

(** ** The claims on the extractor *)

Section ExtractorClaims.
Import XamlProcessor.







Lemma getWorkflowName_root (doc : Dom.document) root others :
  workflowElements doc = root :: others ->
  getWorkflowName (Some doc) = Return (Dom.getAttribute root "DisplayName").
Proof. intros H. unfold getWorkflowName. now rewrite H. Qed.

Lemma getWorkflowAnnotation_absent (doc : Dom.document) root others :
  workflowElements doc = root :: others ->
  Dom.hasAttribute root "sap2010:Annotation.AnnotationText" = false ->
  getWorkflowAnnotation (Some doc) = Return "".
Proof.
  intros H Habsent. unfold getWorkflowAnnotation. rewrite H.
  cbn [first mbind outcome_bind]. now rewrite Habsent.
Qed.

Lemma workflowElements_none (doc : Dom.document) :
  xpath [("xaml", "Activity"); ("xaml", "Flowchart")] doc = [] ->
  xpath [("xaml", "Activity"); ("xaml", "Sequence")] doc = [] ->
  workflowElements doc = [].
Proof. intros Hflow Hseq. unfold workflowElements. now rewrite Hflow, Hseq. Qed.

(** C1, which the code breaks.  Extraction of a document whose workflow
    root carries no annotation attribute never returns a model:
    [getWorkflowAnnotation] reads the annotation as the empty string, as
    C1 expects, and [setWorkflowAnnotation] then rejects the empty string.
    With a display name on the root, what [getMetadata] raises is the
    TypeError of [setWorkflowAnnotation]. *)
Theorem getMetadata_rejects_missing_annotation
    (readXaml : string -> outcome Dom.document) (path : string) (doc : Dom.document)
    (root : Dom.element) (others : list Dom.element) :
  path <> "" ->
  readXaml path = Return doc ->
  workflowElements doc = root :: others ->
  Dom.hasAttribute root "sap2010:Annotation.AnnotationText" = false ->
  getWorkflowAnnotation (Some doc) = Return "" /\
  exists message,
    getMetadata readXaml (str path) = Throw (TypeError message) /\
    (Dom.getAttribute root "DisplayName" <> "" ->
     message = "workflowAnnotation parameter is required and must be a string").
Proof.
  intros Hpath Hread Hroot Habsent.
  split; [now apply (getWorkflowAnnotation_absent doc root others)|].
  unfold getMetadata. rewrite requiredString_str, Hread by assumption.
  cbn [mbind outcome_bind]. unfold AppWorkflowMetadata.constructor.
  rewrite requiredString_str by assumption. cbn [mbind outcome_bind].
  rewrite (getWorkflowName_root doc root others Hroot). cbn [mbind outcome_bind].
  unfold call at 1, AppWorkflowMetadata.setWorkflowName.
  destruct (decide (Dom.getAttribute root "DisplayName" = "")) as [Hempty|Hnamed].
  - rewrite Hempty. cbn. eexists. split; [reflexivity | congruence].
  - rewrite requiredString_str by assumption. cbn [mbind outcome_bind].
    rewrite (getWorkflowAnnotation_absent doc root others Hroot Habsent).
    cbn. eexists. split; reflexivity.
Qed.

(** Extraction of the document shaped like [dos.xaml]. *)
Lemma getMetadata_rejects_dos :
  getMetadata artefacts (str "./test/artefacts/sub-folder/dos.xaml")
  = Throw (TypeError "workflowAnnotation parameter is required and must be a string").
Proof.
  destruct (getMetadata_rejects_missing_annotation artefacts
              "./test/artefacts/sub-folder/dos.xaml" dosDocument
              (Dom.Element activitiesNamespace "Sequence" {[ "DisplayName" := "dos" ]} []) [])
    as (_ & message & Hrun & Hmessage);
    [discriminate | reflexivity | reflexivity | reflexivity |].
  rewrite Hrun, Hmessage; [reflexivity|].
  intros Hname. vm_compute in Hname. discriminate Hname.
Defined.

(** C2, as the code has it.  A document with neither a flowchart root nor
    a sequence root makes both lookups raise the engine's TypeError for a
    property read on [undefined], and [getMetadata] fails with the one of
    [getWorkflowName]. *)
Theorem getMetadata_without_root
    (readXaml : string -> outcome Dom.document) (path : string) (doc : Dom.document) :
  path <> "" ->
  readXaml path = Return doc ->
  xpath [("xaml", "Activity"); ("xaml", "Flowchart")] doc = [] ->
  xpath [("xaml", "Activity"); ("xaml", "Sequence")] doc = [] ->
  getWorkflowName (Some doc) = Throw (UndefinedAccess "getAttribute") /\
  getWorkflowAnnotation (Some doc) = Throw (UndefinedAccess "hasAttribute") /\
  getMetadata readXaml (str path) = Throw (UndefinedAccess "getAttribute").
Proof.
  intros Hpath Hread Hflow Hseq.
  pose proof (workflowElements_none doc Hflow Hseq) as Hnone.
  assert (Hname : getWorkflowName (Some doc) = Throw (UndefinedAccess "getAttribute"))
    by (unfold getWorkflowName; now rewrite Hnone).
  repeat split.
  - exact Hname.
  - unfold getWorkflowAnnotation. now rewrite Hnone.
  - unfold getMetadata. rewrite requiredString_str, Hread by assumption.
    cbn [mbind outcome_bind]. unfold AppWorkflowMetadata.constructor.
    rewrite requiredString_str by assumption. cbn [mbind outcome_bind].
    now rewrite Hname.
Qed.

Lemma getMetadata_without_root_bare :
  getWorkflowName (Some bareDocument) = Throw (UndefinedAccess "getAttribute") /\
  getWorkflowAnnotation (Some bareDocument) = Throw (UndefinedAccess "hasAttribute") /\
  getMetadata artefacts (str "./test/artefacts/tres.xaml")
  = Throw (UndefinedAccess "getAttribute").
Proof.
  apply (getMetadata_without_root artefacts "./test/artefacts/tres.xaml" bareDocument);
    [discriminate | reflexivity | reflexivity | reflexivity].
Defined.

(** C2 fails as stated: the bare activity has neither root, and what
    extraction raises for it is not an error of the program's own. *)
Lemma getMetadata_bare_activity :
  xpath [("xaml", "Activity"); ("xaml", "Flowchart")] bareDocument = [] /\
  xpath [("xaml", "Activity"); ("xaml", "Sequence")] bareDocument = [] /\
  getMetadata artefacts (str "./test/artefacts/tres.xaml")
  = Throw (UndefinedAccess "getAttribute") /\
  raisedBySource (UndefinedAccess "getAttribute") = false.
Proof. repeat split. Qed.

(** The extractor on the document shaped like [uno.xaml]: the name, the
    annotation and the four arguments the tests expect. *)
Example getMetadata_uno :
  exists metadata,
    getMetadata artefacts (str "./test/artefacts/uno.xaml") = Return metadata /\
    AppWorkflowMetadata.workflowName metadata = Some "uno" /\
    size (AppWorkflowMetadata.arguments metadata) = 4%nat /\
    defaultValue <$> AppWorkflowMetadata.arguments metadata !! "Ichi"
    = Some "A default string value" /\
    type <$> AppWorkflowMetadata.arguments metadata !! "Shi" = Some "DataTable".
Proof. eexists. split; [reflexivity|]. repeat split; vm_compute; reflexivity. Qed.

End ExtractorClaims.

(** ** Further invariants of the model *)

Section Invariants.

(** In every model built through the methods of
    src/app/WorkflowMetadata.js no argument is stored under the empty
    name, and the record under a key carries that key as its name. *)
Theorem reachable_names (this : AppWorkflowMetadata.WorkflowMetadata) :
  AppWorkflowMetadata.reachable this ->
  AppWorkflowMetadata.arguments this !! "" = None /\
  map_Forall (fun key arg => name arg = key) (AppWorkflowMetadata.arguments this).
Proof.
  induction 1 as [fp this Hnew | v this _ IH | v this _ IH | n d t a v this _ IH].
  - unfold AppWorkflowMetadata.constructor in Hnew.
    destruct (requiredString fp); [|discriminate]. injection Hnew as <-.
    split; [apply lookup_empty | apply map_Forall_empty].
  - unfold AppWorkflowMetadata.setWorkflowName. destruct (requiredString v); exact IH.
  - unfold AppWorkflowMetadata.setWorkflowAnnotation. destruct (requiredString v); exact IH.
  - destruct (AppWorkflowMetadata.addArgument n d t a v this) as [[u|e] this'] eqn:Hadd;
      cbn [snd].
    + apply addArgument_Return in Hadd
          as (n' & ? & ? & ? & ? & _ & Hn & _ & _ & _ & _ & _ & _ & ->).
      cbn [AppWorkflowMetadata.arguments]. destruct IH as [IH1 IH2]. split.
      * rewrite lookup_insert_ne by congruence. exact IH1.
      * apply map_Forall_insert_2; [reflexivity | exact IH2].
    + apply addArgument_Throw in Hadd as [-> _]. exact IH.
Qed.

Lemma reachable_names_Ichi :
  AppWorkflowMetadata.arguments
    (snd (AppWorkflowMetadata.addArgument (str "Ichi") (str "InArgument") (str "String")
            (str "") (str "") unoApp)) !! "" = None /\
  map_Forall (fun key arg => name arg = key)
    (AppWorkflowMetadata.arguments
       (snd (AppWorkflowMetadata.addArgument (str "Ichi") (str "InArgument") (str "String")
               (str "") (str "") unoApp))).
Proof.
  apply reachable_names. apply AppWorkflowMetadata.reachable_addArgument.
  apply (AppWorkflowMetadata.reachable_new (str "./test/artefacts/uno.xaml")). reflexivity.
Defined.

End Invariants.

(** * Beyond the claims *)

(** ** The enumeration of declared arguments *)

Section ArgumentEnumeration.
Import XamlProcessor.

Lemma selectFrom_nil ns path : Dom.selectFrom ns path [] = [].
Proof. induction path as [|st path IH]; [reflexivity | exact IH]. Qed.

(** Elements below [/xaml:Activity/...] exist only below an activity. *)
Lemma xpath_below_activity (rest : list Dom.step) (doc : Dom.document) e es :
  xpath (("xaml", "Activity") :: rest) doc = e :: es ->
  exists activity others, xpath [("xaml", "Activity")] doc = activity :: others.
Proof.
  unfold xpath, Dom.select. cbn [Dom.selectFrom].
  destruct (filter _ doc) as [|activity others] eqn:Hroots.
  - now rewrite selectFrom_nil.
  - eauto.
Qed.

Lemma getArgumentDefaultValue_returns (doc : Dom.document) activity others (n : string) :
  xpath [("xaml", "Activity")] doc = activity :: others ->
  (exists v, getArgumentDefaultValue (Some doc) (str n) = Return v) <-> n <> "".
Proof.
  intros Hroot. unfold getArgumentDefaultValue, getClassName. split.
  - intros [v Hv] ->. discriminate Hv.
  - intros Hn. rewrite requiredString_str by assumption. rewrite Hroot.
    cbn [first mbind outcome_bind]. destruct (Dom.hasAttribute _ _); eauto.
Qed.

Lemma parseArgumentTypeAttribute_returns (t : string) :
  (exists p, parseArgumentTypeAttribute (str t) = Return p) <-> t <> "".
Proof.
  unfold parseArgumentTypeAttribute. split.
  - intros [p Hp] ->. discriminate Hp.
  - intros Ht. rewrite requiredString_str by assumption. eauto.
Qed.

Lemma getAttribute_or_empty (e : Dom.element) (key : string) :
  (if Dom.hasAttribute e key then Dom.getAttribute e key else "") = Dom.getAttribute e key.
Proof.
  unfold Dom.hasAttribute, Dom.getAttribute.
  destruct (Dom.attributes e !! key) eqn:H; [|reflexivity].
  rewrite bool_decide_eq_true_2 by eauto. reflexivity.
Qed.

Lemma getWorkflowArguments_forEach (doc : Dom.document) :
  getWorkflowArguments (Some doc)
  = forEach (argumentCallback doc)
      (xpath [("xaml", "Activity"); ("x", "Members"); ("x", "Property")] doc) [].
Proof.
  unfold getWorkflowArguments.
  destruct (xpath _ doc) as [|e es]; reflexivity.
Qed.

Lemma argumentCallback_Return doc e acc res :
  argumentCallback doc e acc = Return res ->
  exists arg, res = acc ++ [arg] /\ declares doc e arg.
Proof.
  unfold argumentCallback.
  destruct (parseArgumentTypeAttribute _) as [[d t]|] eqn:Hparse; [|discriminate].
  cbn [mbind outcome_bind].
  destruct (getArgumentDefaultValue _ _) as [v|] eqn:Hdefault; [|discriminate].
  cbn [mbind outcome_bind]. intros [= <-]. eexists. split; [reflexivity|].
  repeat split; cbn; try assumption. apply getAttribute_or_empty.
Qed.

Lemma forEach_argumentCallback_Return doc els acc res :
  forEach (argumentCallback doc) els acc = Return res ->
  exists args, res = acc ++ args /\ Forall2 (declares doc) els args.
Proof.
  revert acc. induction els as [|e els IH]; intros acc.
  - intros [= <-]. exists []. split; [now rewrite app_nil_r | constructor].
  - cbn [forEach].
    destruct (argumentCallback doc e acc) as [acc'|] eqn:Hstep; [|discriminate].
    cbn [mbind outcome_bind]. intros Hrest.
    apply argumentCallback_Return in Hstep as (arg & -> & Harg).
    apply IH in Hrest as (args & -> & Hargs).
    exists (arg :: args). split; [now rewrite <- app_assoc | now constructor].
Qed.

Lemma argumentCallback_returns doc activity others e acc :
  xpath [("xaml", "Activity")] doc = activity :: others ->
  Dom.getAttribute e "Name" <> "" -> Dom.getAttribute e "Type" <> "" ->
  exists arg, argumentCallback doc e acc = Return (acc ++ [arg]).
Proof.
  intros Hroot Hname Htype. unfold argumentCallback.
  destruct (proj2 (parseArgumentTypeAttribute_returns _) Htype) as [p ->].
  destruct (proj2 (getArgumentDefaultValue_returns doc activity others _ Hroot) Hname)
    as [v ->].
  cbn [mbind outcome_bind]. eauto.
Qed.

Lemma argumentCallback_requires doc e acc res :
  argumentCallback doc e acc = Return res ->
  Dom.getAttribute e "Name" <> "" /\ Dom.getAttribute e "Type" <> "".
Proof.
  unfold argumentCallback.
  destruct (parseArgumentTypeAttribute _) as [p|] eqn:Hparse; [|discriminate].
  cbn [mbind outcome_bind].
  destruct (getArgumentDefaultValue _ _) as [v|] eqn:Hdefault; [|discriminate].
  intros _. split.
  - intros Hempty. rewrite Hempty in Hdefault. discriminate Hdefault.
  - intros Hempty. rewrite Hempty in Hparse. discriminate Hparse.
Qed.



Lemma getWorkflowArguments_Return (doc : Dom.document) (args : list Argument) :
  getWorkflowArguments (Some doc) = Return args ->
  Forall2 (declares doc)
    (xpath [("xaml", "Activity"); ("x", "Members"); ("x", "Property")] doc) args.
Proof.
  rewrite getWorkflowArguments_forEach. intros Hrun.
  apply forEach_argumentCallback_Return in Hrun as (args' & -> & Hargs). exact Hargs.
Qed.

(** What [getWorkflowArguments] returns holds one record per declared
    property, in document order, each read off its property element. *)
Theorem getWorkflowArguments_in_order (doc : Dom.document) (args : list Argument) :
  getWorkflowArguments (Some doc) = Return args ->
  length args
  = length (xpath [("xaml", "Activity"); ("x", "Members"); ("x", "Property")] doc) /\
  Forall2 (declares doc)
    (xpath [("xaml", "Activity"); ("x", "Members"); ("x", "Property")] doc) args.
Proof.
  intros Hrun. apply getWorkflowArguments_Return in Hrun.
  split; [symmetry; exact (Forall2_length _ _ _ Hrun) | exact Hrun].
Qed.

End ArgumentEnumeration.

(** ** Extraction as a whole *)

Section Extraction.
Import AppWorkflowMetadata XamlProcessor.

Lemma addDeclared_Return (arg : Argument) (m m' : WorkflowMetadata) :
  addDeclared arg m = Return m' <->
  accepted arg /\
  m' = {| filePath := filePath m; workflowName := workflowName m;
          workflowAnnotation := workflowAnnotation m;
          arguments := <[name arg := arg]> (arguments m) |}.
Proof.
  unfold addDeclared, call. split.
  - destruct (addArgument _ _ _ _ _ m) as [[u|e] m1] eqn:Hadd; [|discriminate].
    intros [= <-].
    apply addArgument_Return in Hadd
        as (n & d & t & a & v & [= Hn] & Hne & [= Hd] & Hin & [= Ht] & Hte & [= Ha] & [= Hv] & ->).
    subst. split; [now repeat split|]. now destruct arg.
  - intros [(Hn & Hd & Ht) ->].
    rewrite (addArgument_valid _ _ _ _ _ m Hn Hd Ht). now destruct arg.
Qed.

Lemma forEach_addDeclared_Return (args : list Argument) (m m' : WorkflowMetadata) :
  forEach addDeclared args m = Return m' <->
  Forall accepted args /\
  m' = {| filePath := filePath m; workflowName := workflowName m;
          workflowAnnotation := workflowAnnotation m;
          arguments := setAll (arguments m) args |}.
Proof.
  revert m. induction args as [|arg args IH]; intros m.
  - unfold setAll. cbn. split.
    + intros [= <-]. split; [constructor | now destruct m].
    + intros [_ ->]. now destruct m.
  - cbn [forEach]. rewrite Forall_cons. split.
    + destruct (addDeclared arg m) as [m1|] eqn:Hstep; [|discriminate].
      cbn [mbind outcome_bind]. intros Hrest.
      apply addDeclared_Return in Hstep as [Harg ->].
      apply IH in Hrest as [Hargs ->]. split; [now split | reflexivity].
    + intros [[Harg Hargs] ->].
      rewrite (proj2 (addDeclared_Return arg m _) (conj Harg eq_refl)).
      cbn [mbind outcome_bind]. apply IH. now split.
Qed.

Lemma forEach_addDeclared_reachable (args : list Argument) (m m' : WorkflowMetadata) :
  forEach addDeclared args m = Return m' -> reachable m -> reachable m'.
Proof.
  revert m. induction args as [|arg args IH]; intros m; cbn [forEach].
  - now intros [= <-].
  - destruct (addDeclared arg m) as [m1|] eqn:Hstep; [|discriminate].
    cbn [mbind outcome_bind]. intros Hrest Hm. apply (IH m1 Hrest).
    unfold addDeclared, call in Hstep.
    destruct (addArgument _ _ _ _ _ m) as [[u|e] m2] eqn:Hadd; [|discriminate].
    injection Hstep as <-.
    replace m2 with (snd (addArgument (str (name arg)) (str (direction arg))
                            (str (type arg)) (str (annotation arg))
                            (str (defaultValue arg)) m)) by now rewrite Hadd.
    now apply reachable_addArgument.
Qed.

Lemma setAll_lookup (args : list Argument) (base : gmap string Argument) (n : string) :
  setAll base args !! n
  = match last (filter (fun arg => name arg = n) args) with
    | Some arg => Some arg
    | None => base !! n
    end.
Proof.
  unfold setAll. revert base. induction args as [|arg args IH]; intros base; [reflexivity|].
  cbn [foldl]. rewrite IH, filter_cons. destruct (decide (name arg = n)) as [Heq|Hne].
  - rewrite last_cons. destruct (last (filter _ args)); [reflexivity|].
    rewrite Heq. apply lookup_insert_eq.
  - destruct (last (filter _ args)); [reflexivity|]. now apply lookup_insert_ne.
Qed.

Lemma getWorkflowAnnotation_root (doc : Dom.document) root others :
  workflowElements doc = root :: others ->
  getWorkflowAnnotation (Some doc)
  = Return (Dom.getAttribute root "sap2010:Annotation.AnnotationText").
Proof.
  intros H. unfold getWorkflowAnnotation. rewrite H. cbn [first mbind outcome_bind].
  rewrite <- (getAttribute_or_empty root "sap2010:Annotation.AnnotationText") at 2.
  now destruct (Dom.hasAttribute root _).
Qed.

Lemma call_setWorkflowName (s : string) (m : WorkflowMetadata) :
  call (setWorkflowName (str s)) m
  = if decide (s = "")
    then Throw (TypeError "workflowName parameter is required and must be a string")
    else Return {| filePath := filePath m; workflowName := Some s;
                   workflowAnnotation := workflowAnnotation m;
                   arguments := arguments m |}.
Proof.
  unfold call, setWorkflowName. destruct (decide (s = "")) as [->|Hs]; [reflexivity|].
  now rewrite requiredString_str.
Qed.

Lemma call_setWorkflowAnnotation (s : string) (m : WorkflowMetadata) :
  call (setWorkflowAnnotation (str s)) m
  = if decide (s = "")
    then Throw (TypeError "workflowAnnotation parameter is required and must be a string")
    else Return {| filePath := filePath m; workflowName := workflowName m;
                   workflowAnnotation := Some s;
                   arguments := arguments m |}.
Proof.
  unfold call, setWorkflowAnnotation. destruct (decide (s = "")) as [->|Hs]; [reflexivity|].
  now rewrite requiredString_str.
Qed.

(** The run of [getMetadata] on a readable file whose document has a
    workflow root. *)
Lemma getMetadata_run (readXaml : string -> outcome Dom.document) (path : string)
    (doc : Dom.document) (root : Dom.element) (others : list Dom.element) :
  path <> "" -> readXaml path = Return doc -> workflowElements doc = root :: others ->
  getMetadata readXaml (str path)
  = m1 ← call (setWorkflowName (str (Dom.getAttribute root "DisplayName")))
           {| filePath := path; workflowName := None; workflowAnnotation := None;
              arguments := ∅ |};
    m2 ← call (setWorkflowAnnotation
                 (str (Dom.getAttribute root "sap2010:Annotation.AnnotationText"))) m1;
    args ← getWorkflowArguments (Some doc);
    forEach addDeclared args m2.
Proof.
  intros Hpath Hread Hroot. unfold getMetadata.
  rewrite requiredString_str, Hread by assumption. cbn [mbind outcome_bind].
  unfold constructor. rewrite requiredString_str by assumption. cbn [mbind outcome_bind].
  rewrite (getWorkflowName_root doc root others Hroot). cbn [mbind outcome_bind].
  destruct (call (setWorkflowName _) _) as [m1|]; [|reflexivity]. cbn [mbind outcome_bind].
  rewrite (getWorkflowAnnotation_root doc root others Hroot). reflexivity.
Qed.

Lemma getMetadata_Return (readXaml : string -> outcome Dom.document)
    (filePath : value) (metadata : WorkflowMetadata) :
  getMetadata readXaml filePath = Return metadata ->
  exists path doc root others args,
    filePath = str path /\ path <> "" /\ readXaml path = Return doc /\
    workflowElements doc = root :: others /\
    Dom.getAttribute root "DisplayName" <> "" /\
    Dom.getAttribute root "sap2010:Annotation.AnnotationText" <> "" /\
    getWorkflowArguments (Some doc) = Return args /\ Forall accepted args /\
    metadata
    = {| AppWorkflowMetadata.filePath := path;
         workflowName := Some (Dom.getAttribute root "DisplayName");
         workflowAnnotation := Some (Dom.getAttribute root "sap2010:Annotation.AnnotationText");
         arguments := setAll ∅ args |}.
Proof.
  - intros Hrun.
    assert (exists path, filePath = str path /\ path <> "") as (path & -> & Hpath).
    { unfold getMetadata in Hrun.
      destruct (requiredString filePath) as [path|] eqn:Hreq; [|discriminate].
      apply requiredString_Some in Hreq. eauto. }
    assert (exists doc, readXaml path = Return doc) as [doc Hread].
    { unfold getMetadata in Hrun. rewrite requiredString_str in Hrun by assumption.
      destruct (readXaml path); [eauto | discriminate]. }
    assert (exists root others, workflowElements doc = root :: others)
      as (root & others & Hroot).
    { unfold getMetadata in Hrun. rewrite requiredString_str, Hread in Hrun by assumption.
      cbn [mbind outcome_bind] in Hrun. unfold constructor in Hrun.
      rewrite requiredString_str in Hrun by assumption. cbn [mbind outcome_bind] in Hrun.
      unfold getWorkflowName in Hrun.
      destruct (workflowElements doc) as [|root others]; [discriminate | eauto]. }
    rewrite (getMetadata_run readXaml path doc root others Hpath Hread Hroot) in Hrun.
    rewrite call_setWorkflowName in Hrun.
    destruct (decide (Dom.getAttribute root "DisplayName" = "")) as [|Hname]; [discriminate|].
    cbn [mbind outcome_bind] in Hrun. rewrite call_setWorkflowAnnotation in Hrun.
    destruct (decide (Dom.getAttribute root "sap2010:Annotation.AnnotationText" = ""))
      as [|Hannotation]; [discriminate|].
    cbn [mbind outcome_bind] in Hrun.
    destruct (getWorkflowArguments (Some doc)) as [args|] eqn:Hargs; [|discriminate].
    cbn [mbind outcome_bind] in Hrun.
    apply forEach_addDeclared_Return in Hrun as [Haccepted ->].
    exists path, doc, root, others, args. now repeat split.
Qed.

(** [getMetadata] returns a model exactly when the file is read, the
    document has a workflow root with a non-empty display name and a
    non-empty annotation, the declared arguments are enumerated and each
    is accepted by [addArgument]; the model then holds the path, the name,
    the annotation and the arguments set in declaration order. *)
Theorem getMetadata_returns_iff (readXaml : string -> outcome Dom.document)
    (filePath : value) (metadata : WorkflowMetadata) :
  getMetadata readXaml filePath = Return metadata <->
  exists path doc root others args,
    filePath = str path /\ path <> "" /\ readXaml path = Return doc /\
    workflowElements doc = root :: others /\
    Dom.getAttribute root "DisplayName" <> "" /\
    Dom.getAttribute root "sap2010:Annotation.AnnotationText" <> "" /\
    getWorkflowArguments (Some doc) = Return args /\ Forall accepted args /\
    metadata
    = {| AppWorkflowMetadata.filePath := path;
         workflowName := Some (Dom.getAttribute root "DisplayName");
         workflowAnnotation := Some (Dom.getAttribute root "sap2010:Annotation.AnnotationText");
         arguments := setAll ∅ args |}.
Proof.
  split; [apply getMetadata_Return|].
  - intros (path & doc & root & others & args & -> & Hpath & Hread & Hroot & Hname
            & Hannotation & Hargs & Haccepted & ->).
    rewrite (getMetadata_run readXaml path doc root others Hpath Hread Hroot).
    rewrite call_setWorkflowName, decide_False by assumption. cbn [mbind outcome_bind].
    rewrite call_setWorkflowAnnotation, decide_False by assumption.
    cbn [mbind outcome_bind]. rewrite Hargs. cbn [mbind outcome_bind].
    apply forEach_addDeclared_Return. now split.
Qed.

(** A model returned by [getMetadata] is ready to be rendered: it was
    built through the methods, it keeps the path it was asked for, and its
    name and annotation getters return non-empty strings. *)
Theorem getMetadata_ready (readXaml : string -> outcome Dom.document)
    (filePath : value) (metadata : WorkflowMetadata) :
  getMetadata readXaml filePath = Return metadata ->
  reachable metadata /\
  filePath = str (AppWorkflowMetadata.filePath metadata) /\
  exists n a,
    n <> "" /\ a <> "" /\
    AppWorkflowMetadata.getWorkflowName metadata = (Return n, metadata) /\
    AppWorkflowMetadata.getWorkflowAnnotation metadata = (Return a, metadata).
Proof.
  intros Hrun.
  pose proof (getMetadata_Return _ _ _ Hrun)
    as (path & doc & root & others & args & -> & Hpath & Hread & Hroot & Hname
        & Hannotation & Hargs & Haccepted & Hmodel).
  split; [|split].
  - rewrite (getMetadata_run readXaml path doc root others Hpath Hread Hroot) in Hrun.
    rewrite Hargs in Hrun.
    set (m0 := {| AppWorkflowMetadata.filePath := path; workflowName := None;
                  workflowAnnotation := None; arguments := ∅ |}) in Hrun.
    assert (Hm0 : reachable m0).
    { apply (reachable_new (str path)). unfold constructor.
      now rewrite requiredString_str. }
    assert (Hm1 : call (setWorkflowName (str (Dom.getAttribute root "DisplayName"))) m0
                  = Return (snd (setWorkflowName
                                   (str (Dom.getAttribute root "DisplayName")) m0))).
    { unfold call, setWorkflowName. now rewrite requiredString_str. }
    rewrite Hm1 in Hrun. cbn [mbind outcome_bind] in Hrun.
    set (m1 := snd (setWorkflowName _ m0)) in Hrun.
    assert (Hm2 : call (setWorkflowAnnotation
                          (str (Dom.getAttribute root "sap2010:Annotation.AnnotationText")))
                       m1
                  = Return (snd (setWorkflowAnnotation
                                   (str (Dom.getAttribute root
                                           "sap2010:Annotation.AnnotationText")) m1))).
    { unfold call, setWorkflowAnnotation. now rewrite requiredString_str. }
    rewrite Hm2 in Hrun. cbn [mbind outcome_bind] in Hrun.
    apply (forEach_addDeclared_reachable _ _ _ Hrun).
    apply reachable_setWorkflowAnnotation, reachable_setWorkflowName, Hm0.
  - now rewrite Hmodel.
  - rewrite Hmodel. do 2 eexists. repeat split; eassumption || reflexivity.
Qed.

(** In a model returned by [getMetadata], the argument found under a
    name is the record of the last declared property with that name:
    later declarations replace earlier ones, and nothing else is stored. *)
Theorem getMetadata_last_declaration (readXaml : string -> outcome Dom.document)
    (path : string) (doc : Dom.document) (metadata : WorkflowMetadata) :
  readXaml path = Return doc ->
  getMetadata readXaml (str path) = Return metadata ->
  exists args,
    Forall2 (declares doc)
      (xpath [("xaml", "Activity"); ("x", "Members"); ("x", "Property")] doc) args /\
    forall n, arguments metadata !! n = last (filter (fun arg => name arg = n) args).
Proof.
  intros Hread Hrun.
  apply getMetadata_Return in Hrun
    as (path' & doc' & root & others & args & [= <-] & Hpath & Hread' & Hroot & Hname
        & Hannotation & Hargs & Haccepted & ->).
  rewrite Hread in Hread'. injection Hread' as <-.
  exists args. split; [now apply getWorkflowArguments_Return|].
  intros n. cbn [arguments]. rewrite setAll_lookup, lookup_empty.
  now destruct (last _).
Qed.

Lemma addDeclared_illegal (bad : Argument) (m : WorkflowMetadata) :
  name bad <> "" -> direction bad <> "" ->
  ~ In (direction bad) validArgumentDirections ->
  addDeclared bad m
  = Throw (TypeError
             "direction parameter must be one of InArgument|OutArgument|InOutArgument").
Proof.
  intros Hname Hdirection Hillegal. unfold addDeclared, call.
  now rewrite (addArgument_illegal _ _ _ _ _ m Hname Hdirection Hillegal).
Qed.

Lemma forEach_addDeclared_illegal (before after : list Argument) (bad : Argument)
    (m : WorkflowMetadata) :
  Forall accepted before ->
  name bad <> "" -> direction bad <> "" ->
  ~ In (direction bad) validArgumentDirections ->
  forEach addDeclared (before ++ bad :: after) m
  = Throw (TypeError
             "direction parameter must be one of InArgument|OutArgument|InOutArgument").
Proof.
  intros Hbefore Hname Hdirection Hillegal. revert m.
  induction Hbefore as [|arg before Harg _ IH]; intros m; cbn [app forEach].
  - now rewrite addDeclared_illegal.
  - rewrite (proj2 (addDeclared_Return arg m _) (conj Harg eq_refl)).
    cbn [mbind outcome_bind]. apply IH.
Qed.

(** A declared direction outside the three legal ones is fatal to the
    extraction: when the root is in order and the first argument that
    [addArgument] does not accept carries a non-empty illegal direction,
    [getMetadata] raises the TypeError that lists the legal directions. *)
Theorem getMetadata_illegal_direction (readXaml : string -> outcome Dom.document)
    (path : string) (doc : Dom.document) (root : Dom.element) (others : list Dom.element)
    (before after : list Argument) (bad : Argument) :
  path <> "" -> readXaml path = Return doc ->
  workflowElements doc = root :: others ->
  Dom.getAttribute root "DisplayName" <> "" ->
  Dom.getAttribute root "sap2010:Annotation.AnnotationText" <> "" ->
  getWorkflowArguments (Some doc) = Return (before ++ bad :: after) ->
  Forall accepted before ->
  direction bad <> "" -> ~ In (direction bad) validArgumentDirections ->
  exists e, getMetadata readXaml (str path) = Throw e /\ namesLegalDirections e = true.
Proof.
  intros Hpath Hread Hroot Hname Hannotation Hargs Hbefore Hdirection Hillegal.
  assert (Hbad : name bad <> "").
  { apply getWorkflowArguments_Return in Hargs.
    apply Forall2_app_inv_r in Hargs as (els1 & els2 & _ & Hels2 & _).
    apply Forall2_cons_inv_r in Hels2 as (e & els3 & (Hn & _ & _ & Hdefault) & _ & _).
    rewrite Hn. intros Hempty. rewrite Hempty in Hdefault.
    unfold getArgumentDefaultValue in Hdefault. discriminate Hdefault. }
  rewrite (getMetadata_run readXaml path doc root others Hpath Hread Hroot).
  rewrite call_setWorkflowName, decide_False by assumption. cbn [mbind outcome_bind].
  rewrite call_setWorkflowAnnotation, decide_False by assumption.
  cbn [mbind outcome_bind]. rewrite Hargs. cbn [mbind outcome_bind].
  rewrite forEach_addDeclared_illegal by assumption. eexists. split; reflexivity.
Qed.

End Extraction.

Section ExtractionCases.
Import AppWorkflowMetadata XamlProcessor.

Lemma getWorkflowArguments_in_order_uno :
  exists args,
    getWorkflowArguments (Some unoDocument) = Return args /\
    Forall2 (declares unoDocument)
      (xpath [("xaml", "Activity"); ("x", "Members"); ("x", "Property")] unoDocument) args.
Proof.
  eexists. split; [reflexivity|].
  apply getWorkflowArguments_in_order. reflexivity.
Defined.

Lemma getMetadata_ready_twice :
  reachable twiceModel /\
  str "twice.xaml" = str (filePath twiceModel) /\
  exists n a,
    n <> "" /\ a <> "" /\
    AppWorkflowMetadata.getWorkflowName twiceModel = (Return n, twiceModel) /\
    AppWorkflowMetadata.getWorkflowAnnotation twiceModel = (Return a, twiceModel).
Proof.
  apply (getMetadata_ready (fun _ => Return repeatedDocument) (str "twice.xaml") twiceModel).
  reflexivity.
Defined.

Lemma getMetadata_last_declaration_twice :
  exists args,
    Forall2 (declares repeatedDocument)
      (xpath [("xaml", "Activity"); ("x", "Members"); ("x", "Property")] repeatedDocument)
      args /\
    forall n,
      arguments
        {| filePath := "twice.xaml"; workflowName := Some "twice";
           workflowAnnotation := Some "Declares Ichi twice";
           arguments :=
             {[ "Ichi" := {| name := "Ichi"; direction := "OutArgument"; type := "Int32";
                             annotation := ""; defaultValue := "" |} ]} |} !! n
      = last (filter (fun arg => name arg = n) args).
Proof.
  apply (getMetadata_last_declaration (fun _ => Return repeatedDocument) "twice.xaml");
    reflexivity.
Defined.

Lemma getMetadata_illegal_direction_odd :
  exists e,
    getMetadata (fun _ => Return illegalDocument) (str "odd.xaml") = Throw e /\
    namesLegalDirections e = true.
Proof.
  apply (getMetadata_illegal_direction (fun _ => Return illegalDocument) "odd.xaml"
           illegalDocument
           (Dom.Element activitiesNamespace "Sequence"
              (list_to_map [ ("DisplayName", "odd");
                             ("sap2010:Annotation.AnnotationText", "An odd direction") ]) [])
           []
           [ {| name := "Ichi"; direction := "InArgument"; type := "String";
                annotation := ""; defaultValue := "" |} ]
           []
           {| name := "Ni"; direction := "Property"; type := "String";
              annotation := ""; defaultValue := "" |}).
  - discriminate.
  - reflexivity.
  - reflexivity.
  - discriminate.
  - discriminate.
  - reflexivity.
  - repeat constructor; cbn; auto; discriminate.
  - discriminate.
  - cbn. intros [H|[H|[H|[]]]]; discriminate H.
Defined.

(** Both root shapes are read alike, and a flowchart root takes
    precedence: with a flowchart below the activity, the name and the
    annotation are those of the first flowchart, whatever sequences there
    are; with none, they are those of the first sequence.  A missing
    attribute reads as the empty string. *)
Theorem workflow_root_precedence (doc : Dom.document) :
  (forall chart charts,
     xpath [("xaml", "Activity"); ("xaml", "Flowchart")] doc = chart :: charts ->
     getWorkflowName (Some doc) = Return (Dom.getAttribute chart "DisplayName") /\
     getWorkflowAnnotation (Some doc)
     = Return (Dom.getAttribute chart "sap2010:Annotation.AnnotationText")) /\
  (forall steps others,
     xpath [("xaml", "Activity"); ("xaml", "Flowchart")] doc = [] ->
     xpath [("xaml", "Activity"); ("xaml", "Sequence")] doc = steps :: others ->
     getWorkflowName (Some doc) = Return (Dom.getAttribute steps "DisplayName") /\
     getWorkflowAnnotation (Some doc)
     = Return (Dom.getAttribute steps "sap2010:Annotation.AnnotationText")).
Proof.
  split.
  - intros chart charts Hcharts.
    assert (Hroot : workflowElements doc = chart :: charts)
      by (unfold workflowElements; now rewrite Hcharts).
    split; [now apply (getWorkflowName_root doc chart charts)
           | now apply (getWorkflowAnnotation_root doc chart charts)].
  - intros steps others Hcharts Hsteps.
    assert (Hroot : workflowElements doc = steps :: others)
      by (unfold workflowElements; now rewrite Hcharts, Hsteps).
    split; [now apply (getWorkflowName_root doc steps others)
           | now apply (getWorkflowAnnotation_root doc steps others)].
Qed.

Lemma workflow_root_precedence_flow :
  getWorkflowName (Some flowDocument) = Return "chart" /\
  getWorkflowAnnotation (Some flowDocument) = Return "A flowchart".
Proof.
  destruct (workflow_root_precedence flowDocument) as [Hchart _].
  exact (Hchart (Dom.Element activitiesNamespace "Flowchart"
                   (list_to_map [ ("DisplayName", "chart");
                                  ("sap2010:Annotation.AnnotationText", "A flowchart") ]) [])
                [] eq_refl).
Defined.

(** A workflow root without a display name is fatal to the extraction:
    the name reads as the empty string, and [getMetadata] raises the
    TypeError of [setWorkflowName]. *)
Theorem getMetadata_unnamed_root (readXaml : string -> outcome Dom.document)
    (path : string) (doc : Dom.document) (root : Dom.element) (others : list Dom.element) :
  path <> "" -> readXaml path = Return doc ->
  workflowElements doc = root :: others ->
  Dom.attributes root !! "DisplayName" = None ->
  getWorkflowName (Some doc) = Return "" /\
  getMetadata readXaml (str path)
  = Throw (TypeError "workflowName parameter is required and must be a string").
Proof.
  intros Hpath Hread Hroot Hunnamed.
  assert (Hname : Dom.getAttribute root "DisplayName" = "")
    by (unfold Dom.getAttribute; now rewrite Hunnamed).
  split.
  - rewrite (getWorkflowName_root doc root others Hroot). now rewrite Hname.
  - rewrite (getMetadata_run readXaml path doc root others Hpath Hread Hroot).
    rewrite call_setWorkflowName, Hname. reflexivity.
Qed.

Lemma getMetadata_unnamed_root_bare :
  getWorkflowName
    (Some [ Dom.Element activitiesNamespace "Activity" ∅
              [ Dom.Element activitiesNamespace "Sequence" ∅ [] ] ]) = Return "" /\
  getMetadata
    (fun _ => Return [ Dom.Element activitiesNamespace "Activity" ∅
                         [ Dom.Element activitiesNamespace "Sequence" ∅ [] ] ])
    (str "anonymous.xaml")
  = Throw (TypeError "workflowName parameter is required and must be a string").
Proof.
  apply (getMetadata_unnamed_root _ "anonymous.xaml" _
           (Dom.Element activitiesNamespace "Sequence" ∅ []) []);
    [discriminate | reflexivity | reflexivity | reflexivity].
Defined.

End ExtractionCases.


(** ** What part_006 keeps of the strings it is given *)

Section Trimming.

Lemma trimEnd_cons (c : Ascii.ascii) (s : string) :
  isWhiteSpace c = false -> trimEnd (String c s) = String c (trimEnd s).
Proof. intros Hc. cbn [trimEnd]. rewrite Hc. now destruct (trimEnd s). Qed.

Lemma trimEnd_unfold (c : Ascii.ascii) (s : string) :
  trimEnd (String c s)
  = match trimEnd s with
    | EmptyString => if isWhiteSpace c then EmptyString else String c EmptyString
    | kept => String c kept
    end.
Proof. reflexivity. Qed.

Lemma trimEnd_idempotent (s : string) : trimEnd (trimEnd s) = trimEnd s.
Proof.
  induction s as [|c s IH]; [reflexivity|]. rewrite (trimEnd_unfold c s).
  destruct (trimEnd s) as [|k kept] eqn:Hkept.
  - destruct (isWhiteSpace c) eqn:Hc; [reflexivity|]. cbn. now rewrite Hc.
  - rewrite trimEnd_unfold, IH. reflexivity.
Qed.

Lemma trimStart_head (s : string) :
  trimStart s = "" \/
  exists c rest, trimStart s = String c rest /\ isWhiteSpace c = false.
Proof.
  induction s as [|c s IH]; [now left|]. cbn [trimStart].
  destruct (isWhiteSpace c) eqn:Hc; [exact IH | right; eauto].
Qed.

Lemma trim_idempotent (s : string) : trim (trim s) = trim s.
Proof.
  unfold trim. destruct (trimStart_head s) as [->|(c & rest & -> & Hc)]; [reflexivity|].
  rewrite (trimEnd_cons c rest Hc). cbn [trimStart]. rewrite Hc.
  rewrite <- (trimEnd_cons c rest Hc). apply trimEnd_idempotent.
Qed.

End Trimming.

Section Part006Invariants.
Import Part006.

(** In every model built through the methods of part_006, an argument
    sits under the name it was added with, which is not empty, while the
    name inside the record is that name trimmed; the name and the type
    of the record are free of surrounding white space, and its direction
    is one of the three legal ones. *)
Theorem reachable_records_006 (this : WorkflowMetadata) :
  reachable this ->
  map_Forall
    (fun key arg =>
       key <> "" /\ name arg = trim key /\ trim (name arg) = name arg /\
       trim (type arg) = type arg /\ In (direction arg) validArgumentDirections)
    (arguments this).
Proof.
  induction 1 as [nm fp this Hnew | v this _ IH | v this _ IH | rel v this _ IH
                 | n d t a v this _ IH].
  - unfold constructor in Hnew. destruct (requiredString fp); [|discriminate].
    injection Hnew as <-. apply map_Forall_empty.
  - unfold setWorkflowName. destruct (requiredString v); exact IH.
  - unfold setWorkflowAnnotation. destruct (requiredString v); exact IH.
  - unfold setProjectFilePath. destruct (requiredString v); exact IH.
  - destruct (addArgument n d t a v this) as [[u|e] this'] eqn:Hadd; cbn [snd].
    + apply addArgument_Return_006 in Hadd
          as (n' & d' & t' & a' & v' & _ & Hn & _ & Hin & _ & _ & _ & _ & ->).
      cbn [arguments]. apply map_Forall_insert_2; [|assumption].
      cbn [name type direction]. rewrite !trim_idempotent, (trim_direction d' Hin).
      now repeat split.
    + apply addArgument_Throw_006 in Hadd as [-> _]. exact IH.
Qed.

Lemma reachable_records_padded :
  map_Forall
    (fun key arg =>
       key <> "" /\ name arg = trim key /\ trim (name arg) = name arg /\
       trim (type arg) = type arg /\ In (direction arg) validArgumentDirections)
    (arguments
       (snd (addArgument (str " Ichi") (str "InArgument") (str "String ") (str "") (str "")
               (snd (addArgument (str "Ichi") (str "OutArgument") (str "Int32") (str "")
                       (str "") uno006))))).
Proof.
  apply reachable_records_006. do 2 apply reachable_addArgument.
  apply (reachable_new (fun p => p) (str "test/artefacts/uno.xaml")). reflexivity.
Defined.

End Part006Invariants.

Section LineBreaks.

Lemma replaceLineBreaks_none (s replacement : string) :
  every (fun c => negb (isLineBreak c)) s = true -> replaceLineBreaks s replacement = s.
Proof.
  induction s as [|c s IH]; [reflexivity|]. cbn [every replaceLineBreaks].
  intros [Hc Hs]%andb_true_iff. apply negb_true_iff in Hc. rewrite Hc, IH; auto.
Qed.

Lemma skipLineBreaks_run (run rest : string) :
  every isLineBreak run = true -> startsOnText rest = true ->
  skipLineBreaks (run +:+ rest) = rest.
Proof.
  intros Hrun Hrest. induction run as [|c run IH].
  - destruct rest as [|c rest]; [reflexivity|].
    cbn [startsOnText] in Hrest. apply negb_true_iff in Hrest.
    change ("" +:+ String c rest) with (String c rest).
    cbn [skipLineBreaks]. now rewrite Hrest.
  - cbn [every] in Hrun. apply andb_true_iff in Hrun as [Hc Hrun].
    rewrite append_cons. cbn [skipLineBreaks]. rewrite Hc. now apply IH.
Qed.

Lemma replaceLineBreaks_run (text run rest replacement : string) :
  every (fun c => negb (isLineBreak c)) text = true ->
  run <> "" -> every isLineBreak run = true -> startsOnText rest = true ->
  replaceLineBreaks (text +:+ run +:+ rest) replacement = text +:+ replacement +:+ rest.
Proof.
  intros Htext Hne Hrun Hrest. induction text as [|c text IH].
  - destruct run as [|c run]; [congruence|].
    cbn [every] in Hrun. apply andb_true_iff in Hrun as [Hc Hrun].
    change ("" +:+ String c run +:+ rest) with (String c (run +:+ rest)).
    cbn [replaceLineBreaks]. rewrite Hc, skipLineBreaks_run by assumption. reflexivity.
  - cbn [every] in Htext. apply andb_true_iff in Htext as [Hc Htext].
    apply negb_true_iff in Hc. rewrite !append_cons. cbn [replaceLineBreaks].
    rewrite Hc, IH by assumption. reflexivity.
Qed.

End LineBreaks.

Section Part006Storage.
Import Part006.

(** What part_006 stores of an argument's annotation: the trimmed
    annotation when it holds no line break; and when it is a text free of
    line breaks, then a run of line breaks, then a rest, the text and the
    rest with one blank between them.  Only this first run is replaced:
    line breaks in the rest are stored. *)
Theorem addArgument_annotation_006 (n d t a v : string) (this : WorkflowMetadata) :
  n <> "" -> In d validArgumentDirections -> t <> "" ->
  exists this' arg,
    addArgument (str n) (str d) (str t) (str a) (str v) this = (Return (), this') /\
    arguments this' !! n = Some arg /\
    (every (fun c => negb (isLineBreak c)) (trim a) = true -> annotation arg = trim a) /\
    (forall text run rest,
       trim a = text +:+ run +:+ rest ->
       every (fun c => negb (isLineBreak c)) text = true ->
       run <> "" -> every isLineBreak run = true -> startsOnText rest = true ->
       annotation arg = text +:+ " " +:+ rest).
Proof.
  intros Hn Hd Ht. do 2 eexists. split; [now apply addArgument_valid_006|].
  split; [cbn; apply lookup_insert_eq|]. cbn [annotation]. split.
  - apply replaceLineBreaks_none.
  - intros text run rest -> Htext Hne Hrun Hrest. now apply replaceLineBreaks_run.
Qed.

Lemma addArgument_annotation_paragraphs :
  exists this' arg,
    addArgument (str "Ichi") (str "InArgument") (str "String")
      (str (" One" +:+ String "013" (String "010" "Two") +:+ String "010" "Three"))
      (str "") uno006
    = (Return (), this') /\
    arguments this' !! "Ichi" = Some arg /\
    annotation arg = "One" +:+ " " +:+ "Two" +:+ String "010" "Three".
Proof.
  destruct (addArgument_annotation_006 "Ichi" "InArgument" "String"
              (" One" +:+ String "013" (String "010" "Two") +:+ String "010" "Three")
              "" uno006)
    as (this' & arg & Hadd & Hlookup & _ & Hrun);
    [discriminate | left; reflexivity | discriminate |].
  exists this', arg. split; [exact Hadd|]. split; [exact Hlookup|].
  apply (Hrun "One" (String "013" (String "010" "")) ("Two" +:+ String "010" "Three"));
    [reflexivity | reflexivity | discriminate | reflexivity | reflexivity].
Defined.

End Part006Storage.

(** ** Setters and the project-relative path *)

Section Setters.


End Setters.

Section ProjectFilePath.
Import Part006.

(** The project-relative path of part_006: reading it raises a
    ReferenceError while it is unset, as it is in a model fresh from the
    constructor; [setProjectFilePath] with a non-empty string stores
    [path.relative] of that string and the model's file path, which is
    what the getter then returns, and changes no other field; with
    anything else it raises a TypeError whose message names the
    workflowAnnotation parameter, and changes nothing. *)
Theorem projectFilePath_accessors (normalize : string -> string)
    (relative : string -> string -> string) :
  (forall filePath this,
     constructor normalize filePath = Return this -> projectFilePath this = None) /\
  (forall this,
     projectFilePath this = None ->
     getProjectFilePath this
     = (Throw (ReferenceError "The projectFilePath property has not been set."), this)) /\
  (forall this projectPath,
     projectPath <> "" ->
     exists this',
       setProjectFilePath relative (str projectPath) this = (Return (), this') /\
       getProjectFilePath this' = (Return (relative projectPath (filePath this)), this') /\
       filePath this' = filePath this /\ workflowName this' = workflowName this /\
       workflowAnnotation this' = workflowAnnotation this /\
       arguments this' = arguments this) /\
  (forall this v,
     (forall s, v = str s -> s = "") ->
     setProjectFilePath relative v this
     = (Throw (TypeError "workflowAnnotation parameter is required and must be a string"),
        this)).
Proof.
  repeat apply conj.
  - intros fp this. unfold constructor.
    destruct (requiredString fp); [|discriminate]. now intros [= <-].
  - intros this Hunset. unfold getProjectFilePath. now rewrite Hunset.
  - intros this projectPath Hp. eexists. unfold setProjectFilePath.
    rewrite requiredString_str by assumption. repeat split.
  - intros this v Hv. unfold setProjectFilePath.
    destruct (requiredString v) as [s|] eqn:Hreq; [|reflexivity].
    apply requiredString_Some in Hreq as [-> Hs]. now specialize (Hv s eq_refl).
Qed.

Lemma projectFilePath_accessors_uno :
  getProjectFilePath
    (snd (setProjectFilePath (fun _ _ => "artefacts/uno.xaml") (str "test") uno006))
  = (Return "artefacts/uno.xaml",
     snd (setProjectFilePath (fun _ _ => "artefacts/uno.xaml") (str "test") uno006)).
Proof.
  destruct (projectFilePath_accessors (fun s => s) (fun _ _ => "artefacts/uno.xaml"))
    as (_ & _ & Hset & _).
  destruct (Hset uno006 "test" ltac:(discriminate)) as (this' & Hcall & Hget & _).
  rewrite Hcall. exact Hget.
Defined.

End ProjectFilePath.

(** ** Rendering: [OutputMarkdown.writeFile] *)

Section Rendering.

Import JsText.

Lemma join_cons (x y : string) (l : list string) (separator : string) :
  join (x :: y :: l) separator = x +:+ separator +:+ join (y :: l) separator.
Proof. reflexivity. Qed.

Lemma join_concatenation (l : list string) : join l "" = concatenation l.
Proof.
  induction l as [|x l IH]; [reflexivity|]. destruct l as [|y l].
  - cbn. now rewrite append_empty_r.
  - rewrite join_cons, IH. reflexivity.
Qed.

Lemma row_cells (arg : Argument) :
  OutputMarkdownEarlier.row arg
  = "|" +:+ name arg +:+ "|" +:+ annotation arg +:+ "|"
    +:+ replace (direction arg) "Argument" "" +:+ "|" +:+ type arg +:+ "|"
    +:+ defaultValue arg +:+ "|" +:+ lineFeed.
Proof. reflexivity. Qed.

Lemma heading_lines (n a : string) (body : list string) :
  join ([ format ("# %s" +:+ lineFeed +:+ lineFeed) [ n ];
          format ("%s" +:+ lineFeed +:+ lineFeed) [ a ];
          format ("## Arguments" +:+ lineFeed +:+ lineFeed) [] ] ++ body) ""
  = "# " +:+ n +:+ lineFeed +:+ lineFeed +:+ a +:+ lineFeed +:+ lineFeed
    +:+ "## Arguments" +:+ lineFeed +:+ lineFeed +:+ concatenation body.
Proof.
  rewrite join_concatenation. cbn [app concatenation foldr].
  change (format ("# %s" +:+ lineFeed +:+ lineFeed) [n]) with ("# " +:+ n +:+ lineFeed +:+ lineFeed).
  change (format ("%s" +:+ lineFeed +:+ lineFeed) [a]) with (a +:+ lineFeed +:+ lineFeed).
  change (format ("## Arguments" +:+ lineFeed +:+ lineFeed) [])
    with ("## Arguments" +:+ lineFeed +:+ lineFeed).
  rewrite !append_assoc. reflexivity.
Qed.

Lemma renders_row (arg : Argument) :
  In (direction arg) AppWorkflowMetadata.validArgumentDirections ->
  renders arg (OutputMarkdownEarlier.row arg).
Proof.
  rewrite row_cells. cbn [In AppWorkflowMetadata.validArgumentDirections].
  intros [Hd|[Hd|[Hd|[]]]]; rewrite <- Hd.
  - exists "In". repeat split; cbn; auto.
  - exists "Out". repeat split; cbn; auto.
  - exists "InOut". repeat split; cbn; auto.
Qed.

(** What the earlier [writeFile] writes for a model that was built
    through the methods and has its name and annotation set: one file,
    named after the workflow, holding the heading, the annotation and
    either the sentence for a workflow without arguments or a table with
    one row per stored argument, in the order the map is visited, each
    direction rendered as [In], [Out] or [InOut]. *)
Theorem writeFile_table (pathJoin : string -> string -> string) (FileSystem : Type)
    (writeFileSync : string -> string -> method FileSystem unit)
    (visit : gmap string Argument -> list Argument)
    (this : OutputMarkdownEarlier.OutputMarkdown)
    (metadata : AppWorkflowMetadata.WorkflowMetadata) (n a : string) :
  AppWorkflowMetadata.reachable metadata ->
  AppWorkflowMetadata.workflowName metadata = Some n ->
  AppWorkflowMetadata.workflowAnnotation metadata = Some a ->
  visit (AppWorkflowMetadata.arguments metadata)
    ≡ₚ (map_to_list (AppWorkflowMetadata.arguments metadata)).*2 ->
  exists body,
    (forall files,
       OutputMarkdownEarlier.writeFile pathJoin FileSystem writeFileSync visit this
         (Some metadata) files
       = writeFileSync (pathJoin (OutputMarkdownEarlier.outputPath this) (n +:+ ".md"))
           ("# " +:+ n +:+ lineFeed +:+ lineFeed +:+ a +:+ lineFeed +:+ lineFeed
            +:+ "## Arguments" +:+ lineFeed +:+ lineFeed +:+ body) files) /\
    (AppWorkflowMetadata.arguments metadata = ∅ ->
     body = "This activity does not define any arguments." +:+ lineFeed) /\
    (AppWorkflowMetadata.arguments metadata <> ∅ ->
     exists rows,
       body = "| Name | Purpose | Direction | Type | Default Value |" +:+ lineFeed
              +:+ "| ---- | ------- | --------- | ---- | ------------- |" +:+ lineFeed
              +:+ concatenation rows /\
       length rows = size (AppWorkflowMetadata.arguments metadata) /\
       Forall2 renders (visit (AppWorkflowMetadata.arguments metadata)) rows).
Proof.
  intros Hreach Hname Hannotation Hvisit.
  set (table := if (size (AppWorkflowMetadata.arguments metadata) =? 0)%nat
                then [ "This activity does not define any arguments." +:+ lineFeed ]
                else [ "| Name | Purpose | Direction | Type | Default Value |" +:+ lineFeed;
                       "| ---- | ------- | --------- | ---- | ------------- |" +:+ lineFeed ]
                     ++ map OutputMarkdownEarlier.row
                          (visit (AppWorkflowMetadata.arguments metadata))).
  exists (concatenation table). split; [|split].
  - intros files. unfold OutputMarkdownEarlier.writeFile, read,
      AppWorkflowMetadata.getWorkflowName, AppWorkflowMetadata.getWorkflowAnnotation,
      AppWorkflowMetadata.getArguments.
    rewrite Hname, Hannotation. cbn [fst mbind outcome_bind].
    fold table. now rewrite heading_lines.
  - intros Hempty. unfold table. rewrite Hempty, map_size_empty. cbn.
    now rewrite append_empty_r.
  - intros Hsome. unfold table.
    destruct (size (AppWorkflowMetadata.arguments metadata) =? 0)%nat eqn:Hsize.
    + apply Nat.eqb_eq, map_size_empty_iff in Hsize. contradiction.
    + exists (map OutputMarkdownEarlier.row (visit (AppWorkflowMetadata.arguments metadata))).
      split; [|split].
      * cbn [app concatenation foldr]. now rewrite !append_assoc.
      * rewrite length_map, Hvisit, length_fmap. apply length_map_to_list.
      * apply Forall2_fmap_r, Forall_Forall2_diag, Forall_forall. intros arg Harg.
        apply renders_row.
        rewrite Hvisit in Harg. apply list_elem_of_fmap in Harg as ([key arg'] & -> & Hin).
        apply elem_of_map_to_list in Hin.
        exact (reachable_directions metadata Hreach key arg' Hin).
Qed.

(** Extraction and rendering compose: for every model [getMetadata]
    returns, the earlier [writeFile] raises nothing of its own and
    performs one write, to the file named after the display name of the
    workflow root. *)
Theorem writeFile_after_getMetadata (readXaml : string -> outcome Dom.document)
    (filePath : value) (metadata : AppWorkflowMetadata.WorkflowMetadata)
    (pathJoin : string -> string -> string) (FileSystem : Type)
    (writeFileSync : string -> string -> method FileSystem unit)
    (visit : gmap string Argument -> list Argument) :
  XamlProcessor.getMetadata readXaml filePath = Return metadata ->
  exists n text,
    AppWorkflowMetadata.workflowName metadata = Some n /\ n <> "" /\
    forall this files,
      OutputMarkdownEarlier.writeFile pathJoin FileSystem writeFileSync visit this
        (Some metadata) files
      = writeFileSync (pathJoin (OutputMarkdownEarlier.outputPath this) (n +:+ ".md"))
          text files.
Proof.
  intros Hrun.
  apply getMetadata_Return in Hrun
    as (path & doc & root & others & args & _ & _ & _ & _ & Hname & _ & _ & _ & ->).
  do 2 eexists. split; [reflexivity|]. split; [exact Hname|].
  intros this files. reflexivity.
Qed.

Lemma writeFile_after_getMetadata_twice :
  exists n text,
    AppWorkflowMetadata.workflowName twiceModel = Some n /\ n <> "" /\
    forall this files,
      OutputMarkdownEarlier.writeFile slashJoin (gmap string string) store values this
        (Some twiceModel) files
      = store (slashJoin (OutputMarkdownEarlier.outputPath this) (n +:+ ".md")) text files.
Proof.
  apply (writeFile_after_getMetadata (fun _ => Return repeatedDocument) (str "twice.xaml")).
  reflexivity.
Defined.

Lemma twiceModel_reachable : AppWorkflowMetadata.reachable twiceModel.
Proof.
  assert (H0 : AppWorkflowMetadata.reachable
                 {| AppWorkflowMetadata.filePath := "twice.xaml";
                    AppWorkflowMetadata.workflowName := None;
                    AppWorkflowMetadata.workflowAnnotation := None;
                    AppWorkflowMetadata.arguments := ∅ |})
    by (apply (AppWorkflowMetadata.reachable_new (str "twice.xaml")); reflexivity).
  apply (AppWorkflowMetadata.reachable_setWorkflowName (str "twice")) in H0.
  apply (AppWorkflowMetadata.reachable_setWorkflowAnnotation (str "Declares Ichi twice"))
    in H0.
  apply (AppWorkflowMetadata.reachable_addArgument (str "Ichi") (str "OutArgument")
           (str "Int32") (str "") (str "")) in H0.
  exact H0.
Qed.

Lemma writeFile_table_twice :
  exists body,
    (forall files,
       OutputMarkdownEarlier.writeFile slashJoin (gmap string string) store values
         {| OutputMarkdownEarlier.outputPath := "docs" |} (Some twiceModel) files
       = store (slashJoin "docs" ("twice" +:+ ".md"))
           ("# " +:+ "twice" +:+ lineFeed +:+ lineFeed +:+ "Declares Ichi twice"
            +:+ lineFeed +:+ lineFeed +:+ "## Arguments" +:+ lineFeed +:+ lineFeed
            +:+ body) files) /\
    (AppWorkflowMetadata.arguments twiceModel = ∅ ->
     body = "This activity does not define any arguments." +:+ lineFeed) /\
    (AppWorkflowMetadata.arguments twiceModel <> ∅ ->
     exists rows,
       body = "| Name | Purpose | Direction | Type | Default Value |" +:+ lineFeed
              +:+ "| ---- | ------- | --------- | ---- | ------------- |" +:+ lineFeed
              +:+ concatenation rows /\
       length rows = size (AppWorkflowMetadata.arguments twiceModel) /\
       Forall2 renders (values (AppWorkflowMetadata.arguments twiceModel)) rows).
Proof.
  apply (writeFile_table slashJoin (gmap string string) store values
           {| OutputMarkdownEarlier.outputPath := "docs" |} twiceModel
           "twice" "Declares Ichi twice").
  - exact twiceModel_reachable.
  - reflexivity.
  - reflexivity.
  - reflexivity.
Defined.

Lemma substitute_join (s : string) (separator : Ascii.ascii) :
  join (split s separator) "-" = substitute separator "-" s.
Proof.
  induction s as [|c s IH]; [reflexivity|]. cbn [split substitute].
  destruct (Ascii.eqb c separator).
  - destruct (split s separator) as [|piece pieces] eqn:Hpieces.
    + destruct s; cbn in Hpieces; [discriminate|].
      destruct (Ascii.eqb _ _); [discriminate|]. now destruct (split s separator).
    + rewrite join_cons, IH. reflexivity.
  - destruct (split s separator) as [|piece pieces] eqn:Hpieces.
    + destruct s; cbn in Hpieces; [discriminate|].
      destruct (Ascii.eqb _ _); [discriminate|]. now destruct (split s separator).
    + rewrite <- IH. destruct pieces as [|other pieces]; [reflexivity|].
      rewrite !join_cons. reflexivity.
Qed.

Lemma absent_substitute (c d : Ascii.ascii) (s : string) :
  c <> d -> absent c (substitute c d s).
Proof.
  intros Hne. induction s as [|a s IH]; intros [|i]; unfold occursAt; cbn;
    try discriminate.
  - destruct (Ascii.eqb_spec a c); congruence.
  - apply IH.
Qed.

Lemma absent_tail (c a : Ascii.ascii) (s : string) : absent c (String a s) -> absent c s.
Proof. intros H i. apply (H (S i)). Qed.

Lemma absent_dropString (c : Ascii.ascii) (n : nat) (s : string) :
  absent c s -> absent c (dropString n s).
Proof.
  revert s. induction n as [|n IH]; intros s Hs; [exact Hs|].
  destruct s as [|a s]; [exact Hs|]. cbn [dropString]. apply IH.
  now apply (absent_tail c a).
Qed.

Lemma absent_replace (c : Ascii.ascii) (s pattern replacement : string) :
  absent c s -> absent c replacement -> absent c (replace s pattern replacement).
Proof.
  intros Hs Hr. induction s as [|a s IH].
  - cbn [replace]. destruct (String.prefix pattern ""); [|exact Hs].
    apply absent_append; [exact Hr | now apply absent_dropString].
  - cbn [replace]. destruct (String.prefix pattern (String a s)).
    + apply absent_append; [exact Hr | now apply absent_dropString].
    + apply absent_cons.
      * intros ->. now apply (Hs 0%nat).
      * apply IH. now apply (absent_tail c a).
Qed.

(** The file the later [writeFile] writes to.  With a project-relative
    path on the model, the file name is that path with every separator
    turned into a dash and its first [.xaml] into [.md]; it holds no
    separator, so the file lies directly in the output directory.
    Without one, the name is the trimmed workflow name followed by [.md];
    with neither, the ReferenceError of the name escapes. *)
Theorem outputFilePath_flat (pathSep : Ascii.ascii) (pathJoin : string -> string -> string)
    (this : OutputMarkdown.OutputMarkdown) (metadata : Part006.WorkflowMetadata) :
  (forall relative,
     Part006.projectFilePath metadata = Some relative ->
     pathSep <> "-"%char -> pathSep <> "."%char -> pathSep <> "m"%char ->
     pathSep <> "d"%char ->
     exists file,
       OutputMarkdown.outputFilePath pathSep pathJoin this metadata
       = Return (pathJoin (OutputMarkdown.outputPath this) file) /\
       file = replace (substitute pathSep "-" relative) ".xaml" ".md" /\
       absent pathSep file) /\
  (forall n,
     Part006.projectFilePath metadata = None ->
     Part006.workflowName metadata = Some n ->
     OutputMarkdown.outputFilePath pathSep pathJoin this metadata
     = Return (pathJoin (OutputMarkdown.outputPath this) (trim n +:+ ".md"))) /\
  (Part006.projectFilePath metadata = None ->
   Part006.workflowName metadata = None ->
   OutputMarkdown.outputFilePath pathSep pathJoin this metadata
   = Throw (ReferenceError "The workflowName property has not been set.")).
Proof.
  unfold OutputMarkdown.outputFilePath, read, Part006.getProjectFilePath,
    Part006.getWorkflowName.
  repeat apply conj.
  - intros relative -> Hdash Hdot Hm Hd. cbn [fst]. eexists. split; [reflexivity|].
    rewrite substitute_join. split; [reflexivity|].
    apply absent_replace; [now apply absent_substitute|].
    repeat (apply absent_cons; [congruence|]). intros i. destruct i; discriminate.
  - intros n -> ->. reflexivity.
  - intros -> ->. reflexivity.
Qed.

Lemma outputFilePath_flat_nested :
  exists file,
    OutputMarkdown.outputFilePath "/" slashJoin {| OutputMarkdown.outputPath := "docs" |}
      nested006
    = Return (slashJoin "docs" file) /\
    file = replace (substitute "/" "-" "sub-folder/dos.xaml") ".xaml" ".md" /\
    absent "/" file.
Proof.
  destruct (outputFilePath_flat "/" slashJoin {| OutputMarkdown.outputPath := "docs" |}
              nested006) as [Hflat _].
  apply Hflat; [reflexivity | discriminate | discriminate | discriminate | discriminate].
Defined.

(** The later [writeFile] writes exactly when the model has its name and
    its annotation: then it performs one write, to the file
    [outputFilePath] derives; for an argument that is no model, and for a
    model that lacks the name or the annotation, it raises, the
    ReferenceError of the first unset field in the latter case, and the
    file system is left as it was. *)
Theorem writeFile_ready (pathSep : Ascii.ascii) (pathJoin : string -> string -> string)
    (FileSystem : Type) (writeFileSync : string -> string -> method FileSystem unit)
    (visit : gmap string Argument -> list Argument)
    (this : OutputMarkdown.OutputMarkdown) (files : FileSystem) :
  (forall metadata n a,
     Part006.workflowName metadata = Some n ->
     Part006.workflowAnnotation metadata = Some a ->
     exists path text,
       OutputMarkdown.outputFilePath pathSep pathJoin this metadata = Return path /\
       OutputMarkdown.writeFile pathSep pathJoin FileSystem writeFileSync visit this
         (Some metadata) files
       = writeFileSync path text files) /\
  (forall metadata,
     Part006.workflowName metadata = None ->
     OutputMarkdown.writeFile pathSep pathJoin FileSystem writeFileSync visit this
       (Some metadata) files
     = (Throw (ReferenceError "The workflowName property has not been set."), files)) /\
  (forall metadata n,
     Part006.workflowName metadata = Some n ->
     Part006.workflowAnnotation metadata = None ->
     OutputMarkdown.writeFile pathSep pathJoin FileSystem writeFileSync visit this
       (Some metadata) files
     = (Throw (ReferenceError "The workflowAnnotation property has not been set."), files)) /\
  OutputMarkdown.writeFile pathSep pathJoin FileSystem writeFileSync visit this None files
  = (Throw (TypeError "metadata parameter is required and must be a WorkflowMetadata object"),
     files).
Proof.
  unfold OutputMarkdown.writeFile, OutputMarkdown.outputFilePath, read,
    Part006.getProjectFilePath, Part006.getWorkflowName, Part006.getWorkflowAnnotation,
    Part006.getArguments.
  repeat apply conj.
  - intros metadata n a -> ->.
    destruct (Part006.projectFilePath metadata); cbn [fst mbind outcome_bind];
      do 2 eexists; split; reflexivity.
  - intros metadata ->. now destruct (Part006.projectFilePath metadata).
  - intros metadata n -> ->. now destruct (Part006.projectFilePath metadata).
  - reflexivity.
Qed.

Lemma writeFile_ready_nested :
  exists path text,
    OutputMarkdown.outputFilePath "/" slashJoin {| OutputMarkdown.outputPath := "docs" |}
      nested006 = Return path /\
    OutputMarkdown.writeFile "/" slashJoin (gmap string string) store values
      {| OutputMarkdown.outputPath := "docs" |} (Some nested006) ∅
    = store path text ∅.
Proof.
  destruct (writeFile_ready "/" slashJoin (gmap string string) store values
              {| OutputMarkdown.outputPath := "docs" |} ∅) as [Hready _].
  apply (Hready nested006 "dos" "Second artefact"); reflexivity.
Defined.

End Rendering.

(** ** The source path *)

Section SourcePath.







End SourcePath.

(** ** Failures of the extraction, and what a failed call leaves behind *)

Section Failures.
Import AppWorkflowMetadata XamlProcessor.

Lemma forEach_argumentCallback_Throw doc activity others els acc err :
  xpath [("xaml", "Activity")] doc = activity :: others ->
  forEach (argumentCallback doc) els acc = Throw err ->
  exists good bad rest,
    els = good ++ bad :: rest /\
    Forall (fun e => Dom.getAttribute e "Name" <> "" /\ Dom.getAttribute e "Type" <> "")
      good /\
    (Dom.getAttribute bad "Type" = "" /\
     err = TypeError "argumentType parameter is required and must be a string" \/
     Dom.getAttribute bad "Type" <> "" /\ Dom.getAttribute bad "Name" = "" /\
     err = TypeError "argumentName parameter is required and must be a string").
Proof.
  intros Hroot. revert acc. induction els as [|e els IH]; intros acc; cbn [forEach];
    [discriminate|].
  destruct (argumentCallback doc e acc) as [acc'|err'] eqn:Hstep; cbn [mbind outcome_bind].
  - intros Hrest. apply IH in Hrest as (good & bad & rest & -> & Hgood & Hbad).
    exists (e :: good), bad, rest. repeat split; [|exact Hbad].
    constructor; [|exact Hgood]. now apply argumentCallback_requires in Hstep.
  - intros [= <-]. exists [], e, els. repeat split; [constructor|].
    revert Hstep. unfold argumentCallback, parseArgumentTypeAttribute.
    destruct (decide (Dom.getAttribute e "Type" = "")) as [Htype|Htype].
    + rewrite Htype. cbn. intros [= <-]. now left.
    + rewrite requiredString_str by assumption. cbn [mbind outcome_bind].
      unfold getArgumentDefaultValue, getClassName.
      destruct (decide (Dom.getAttribute e "Name" = "")) as [Hname|Hname].
      * rewrite Hname. cbn. intros [= <-]. now right.
      * rewrite requiredString_str by assumption. rewrite Hroot.
        cbn [first mbind outcome_bind].
        destruct (Dom.hasAttribute activity _); cbn [mbind outcome_bind]; discriminate.
Qed.

Lemma getWorkflowArguments_Throw (doc : Dom.document) (err : error) :
  getWorkflowArguments (Some doc) = Throw err ->
  exists good bad rest,
    xpath [("xaml", "Activity"); ("x", "Members"); ("x", "Property")] doc
    = good ++ bad :: rest /\
    Forall (fun e => Dom.getAttribute e "Name" <> "" /\ Dom.getAttribute e "Type" <> "")
      good /\
    (Dom.getAttribute bad "Type" = "" /\
     err = TypeError "argumentType parameter is required and must be a string" \/
     Dom.getAttribute bad "Type" <> "" /\ Dom.getAttribute bad "Name" = "" /\
     err = TypeError "argumentName parameter is required and must be a string").
Proof.
  rewrite getWorkflowArguments_forEach.
  destruct (xpath [("xaml", "Activity"); ("x", "Members"); ("x", "Property")] doc)
    as [|e0 es] eqn:Hels; [discriminate|].
  destruct (xpath_below_activity _ doc e0 es Hels) as (activity & others & Hroot).
  apply (forEach_argumentCallback_Throw doc activity others _ _ _ Hroot).
Qed.

(** When the enumeration of declared arguments raises, the first
    property that lacks a non-empty [Type] or a non-empty [Name] decides
    the error: the TypeError of the type decoder when its [Type] is empty
    or missing, otherwise the one for the argument name.  No other error
    is raised, and none by a property read of [undefined]. *)
Theorem getWorkflowArguments_first_defect (doc : Dom.document) (err : error) :
  getWorkflowArguments (Some doc) = Throw err <->
  exists good bad rest,
    xpath [("xaml", "Activity"); ("x", "Members"); ("x", "Property")] doc
    = good ++ bad :: rest /\
    Forall (fun e => Dom.getAttribute e "Name" <> "" /\ Dom.getAttribute e "Type" <> "")
      good /\
    (Dom.getAttribute bad "Type" = "" /\
     err = TypeError "argumentType parameter is required and must be a string" \/
     Dom.getAttribute bad "Type" <> "" /\ Dom.getAttribute bad "Name" = "" /\
     err = TypeError "argumentName parameter is required and must be a string").
Proof.
  split; [apply getWorkflowArguments_Throw|].
  intros (good & bad & rest & Hels & Hgood & Hbad).
  rewrite getWorkflowArguments_forEach, Hels.
  assert (exists activity others, xpath [("xaml", "Activity")] doc = activity :: others)
    as (activity & others & Hroot).
  { destruct good as [|g good]; exact (xpath_below_activity _ doc _ _ Hels). }
  clear Hels. generalize (@nil Argument).
  induction Hgood as [|e good [Hname Htype] _ IH]; intros acc; cbn [app forEach].
  - unfold argumentCallback, parseArgumentTypeAttribute.
    destruct Hbad as [[Htype ->]|(Htype & Hname & ->)].
    + now rewrite Htype.
    + rewrite requiredString_str by assumption. cbn [mbind outcome_bind].
      unfold getArgumentDefaultValue. now rewrite Hname.
  - destruct (argumentCallback_returns doc activity others e acc Hroot Hname Htype)
      as [arg ->].
    cbn [mbind outcome_bind]. apply IH.
Qed.






End Failures.

Section ExceptionSafety.

(** No method of either revision of the model leaves a partial update
    behind: a call that raises leaves the model as it was; and the getters
    never change it. *)
Theorem methods_exception_safe :
  (forall v, failsafe (AppWorkflowMetadata.setWorkflowName v)) /\
  (forall v, failsafe (AppWorkflowMetadata.setWorkflowAnnotation v)) /\
  (forall n d t a v, failsafe (AppWorkflowMetadata.addArgument n d t a v)) /\
  (forall v, failsafe (Part006.setWorkflowName v)) /\
  (forall v, failsafe (Part006.setWorkflowAnnotation v)) /\
  (forall relative v, failsafe (Part006.setProjectFilePath relative v)) /\
  (forall n d t a v, failsafe (Part006.addArgument n d t a v)) /\
  readonly AppWorkflowMetadata.getFilePath /\
  readonly AppWorkflowMetadata.getWorkflowName /\
  readonly AppWorkflowMetadata.getWorkflowAnnotation /\
  readonly AppWorkflowMetadata.getArguments /\
  readonly Part006.getFilePath /\ readonly Part006.getWorkflowName /\
  readonly Part006.getWorkflowAnnotation /\ readonly Part006.getArguments /\
  readonly Part006.getProjectFilePath.
Proof.
  repeat apply conj; try (intros this; cbv beta delta
      [AppWorkflowMetadata.getFilePath AppWorkflowMetadata.getWorkflowName
       AppWorkflowMetadata.getWorkflowAnnotation AppWorkflowMetadata.getArguments
       Part006.getFilePath Part006.getWorkflowName Part006.getWorkflowAnnotation
       Part006.getArguments Part006.getProjectFilePath];
      repeat match goal with |- context [match ?x with _ => _ end] => destruct x end;
      reflexivity).
  - intros v this e. unfold AppWorkflowMetadata.setWorkflowName.
    now destruct (requiredString v).
  - intros v this e. unfold AppWorkflowMetadata.setWorkflowAnnotation.
    now destruct (requiredString v).
  - intros n d t a v this e.
    destruct (AppWorkflowMetadata.addArgument n d t a v this) as [[u|e'] this'] eqn:Hadd;
      [discriminate|].
    intros _. now apply addArgument_Throw in Hadd.
  - intros v this e. unfold Part006.setWorkflowName. now destruct (requiredString v).
  - intros v this e. unfold Part006.setWorkflowAnnotation. now destruct (requiredString v).
  - intros relative v this e. unfold Part006.setProjectFilePath.
    now destruct (requiredString v).
  - intros n d t a v this e.
    destruct (Part006.addArgument n d t a v this) as [[u|e'] this'] eqn:Hadd;
      [discriminate|].
    intros _. now apply addArgument_Throw_006 in Hadd.
Qed.

Lemma methods_exception_safe_Ichi :
  snd (AppWorkflowMetadata.addArgument (str "Ichi") (str "In") (str "String") (str "")
         (str "") unoApp)
  = unoApp.
Proof.
  destruct methods_exception_safe as (_ & _ & Hadd & _).
  apply (Hadd (str "Ichi") (str "In") (str "String") (str "") (str "") unoApp
           (TypeError
              "direction parameter must be one of InArgument|OutArgument|InOutArgument")).
  reflexivity.
Defined.

End ExceptionSafety.
